(** * ZUUK1m1p: a shallow embedding of the strategy and its properties

  The strategy file [user_data/strategies/ZUUK1m1p.py] defines one class
  with three data-frame passes ([populate_indicators],
  [populate_buy_trend], [populate_sell_trend]) and a scalar function
  ([custom_stoploss]).  The embedding keeps the shape of the Python:

  - a Python/numpy float is an IEEE-754 binary64 number, here Rocq's
    primitive [float]; arithmetic and comparisons are the primitive
    ones, so NaN, the infinities and rounding behave as at run time;
  - a [DataFrame] is a row count together with a finite map from column
    names to columns, a column being a list of cells;
  - a Python exception is a [Raise] in a small error monad;
  - TA-Lib's [ATR] and [EMA] are an interface ([TALib]), the host's data
    provider is a record ([DataProvider]). *)

From Stdlib Require Import ZArith QArith List Floats Lia.
From stdpp Require Import base option list gmap strings.

Set Warnings "-inexact-float".

Local Open Scope Z_scope.

(** ** Python values and exceptions *)

Module Py.

Inductive exn :=
| KeyError (key : string)
| TypeError
| IndexError
| ValueError
| Exception (keys : list string).

Inductive res (A : Type) :=
| Ok (a : A)
| Raise (e : exn).
Global Arguments Ok {A} a.
Global Arguments Raise {A} e.

Global Instance res_ret : MRet res := fun _ a => Ok a.
Global Instance res_bind : MBind res := fun _ _ k r =>
  match r with
  | Ok a => k a
  | Raise e => Raise e
  end.

(** [ValueError] is what pandas raises when a scalar is assigned to a new
    column of a frame without rows; [Exception keys] is the bare
    [Exception] of [talib.abstract] that names the input columns a frame
    lacks. *)

(** What a data-frame cell (or a value read from a row) can be: a
    float64, a numpy bool, or a timestamp in microseconds. *)
Inductive scalar :=
| F (x : float)
| B (b : bool)
| T (t : Z).

(** What [custom_stoploss] hands back: the literal [1] is a Python int,
    the computed percentage a float. *)
Inductive pyval :=
| PyInt (n : Z)
| PyFloat (x : float).

(** Comparisons, written as in the source: [gt x y] is [x > y]. *)
Definition gt (x y : float) : bool := (y <? x)%float.
Definition ge (x y : float) : bool := (y <=? x)%float.
Definition lt (x y : float) : bool := (x <? y)%float.
Definition le (x y : float) : bool := (x <=? y)%float.

(** numpy's cast of a bool that meets a float in arithmetic. *)
Definition float_of_bool (b : bool) : float := if b then 1%float else 0%float.

(** A cell used as a number: bools are cast, timestamps are refused. *)
Definition to_float (v : scalar) : res float :=
  match v with
  | F x => Ok x
  | B b => Ok (float_of_bool b)
  | T _ => Raise TypeError
  end.

(** [if v:] -- a float is true unless it is zero (NaN is true). *)
Definition truthy (v : scalar) : bool :=
  match v with
  | F x => negb (x =? 0)%float
  | B b => b
  | T _ => true
  end.

(** The builtin [max(x, *rest)]: keep the first argument, replace it by a
    later one only when that one compares strictly greater. *)
Definition max (x : float) (rest : list float) : float :=
  fold_left (fun m item => if gt item m then item else m) rest x.

(** The builtin [min], used by the rolling minimum. *)
Definition min (x : float) (rest : list float) : float :=
  fold_left (fun m item => if lt item m then item else m) rest x.

(** [float(n)] for an int: round to nearest, ties to even. *)
Definition float_of_int (n : Z) : float :=
  SF2Prim (binary_normalize prec emax n 0 false).

(** An int as an exact (unrounded) binary number. *)
Definition exact_int (n : Z) : spec_float :=
  match n with
  | Z0 => S754_zero false
  | Zpos p => S754_finite false p 0
  | Zneg p => S754_finite true p 0
  end.

(** [a / b] on two ints: the correctly rounded quotient. *)
Definition int_truediv (a b : Z) : float :=
  SF2Prim (SFdiv prec emax (exact_int a) (exact_int b)).

(** [datetime] values are microseconds since the epoch; their difference
    is a [timedelta], again in microseconds, and
    [timedelta.total_seconds()] divides it by [10**6]. *)
Definition datetime := Z.
Definition timedelta := Z.
Definition total_seconds (td : timedelta) : float := int_truediv td 1000000.

(** The exact rational value of a finite float, in lowest terms. *)
Definition exact_value (x : float) : option Q :=
  match Prim2SF x with
  | S754_zero _ => Some 0%Q
  | S754_finite s m e =>
      let v := (match e with
                | Zneg p => Z.pos m # (2 ^ p)
                | _ => (Z.pos m * 2 ^ e) # 1
                end)%Q in
      Some (Qred (if s then Qopp v else v))
  | _ => None
  end.

End Py.
Import Py.

(** ** pandas: series and data frames *)

Module Pandas.

(** A column is a list of cells; a frame has [nrows] rows and named
    columns.  [len(df)] is [nrows].  The columns are kept by name: the
    order in which pandas lists them is not part of the model. *)
Record DataFrame := mkDataFrame {
  nrows : nat;
  cols : gmap string (list scalar)
}.

Definition len (df : DataFrame) : nat := nrows df.

(** [df[name]]: the column, or [KeyError]. *)
Definition getitem (df : DataFrame) (name : string) : res (list scalar) :=
  match cols df !! name with
  | Some c => Ok c
  | None => Raise (KeyError name)
  end.

(** A column read as float64 values. *)
Fixpoint to_floats (c : list scalar) : res (list float) :=
  match c with
  | [] => Ok []
  | v :: c' =>
      x ← to_float v;
      xs ← to_floats c';
      Ok (x :: xs)
  end.

Definition numeric (df : DataFrame) (name : string) : res (list float) :=
  c ← getitem df name; to_floats c.

(** [df[name] = series]: the series is aligned on the frame's index
    (missing positions become NaN, extra ones are dropped), every other
    column is left alone. *)
Definition setitem (df : DataFrame) (name : string) (c : list scalar) : DataFrame :=
  mkDataFrame (nrows df) (<[name := resize (nrows df) (F nan) c]> (cols df)).

(** The assignment [df.loc[mask, name] = v] once pandas accepts it: the
    column is created full of NaN when it does not exist yet; the masked
    rows receive [v]. *)
Definition loc_assign (df : DataFrame) (mask : list bool) (name : string)
    (v : scalar) : DataFrame :=
  let old := resize (nrows df) (F nan) (default [] (cols df !! name)) in
  let new := imap (fun i o => if default false (mask !! i) then v else o) old in
  mkDataFrame (nrows df) (<[name := new]> (cols df)).

(** [df.loc[mask, name] = v] for a scalar [v]: a new column cannot be
    set on a frame without rows ("cannot set a frame with no defined index
    and a scalar"). *)
Definition loc_setitem (df : DataFrame) (mask : list bool) (name : string)
    (v : scalar) : res DataFrame :=
  match cols df !! name, nrows df with
  | None, O => Raise ValueError
  | _, _ => Ok (loc_assign df mask name v)
  end.

(** [df.iloc[-1]]: the last row as a map from column names to cells. *)
Definition iloc_last (df : DataFrame) : res (gmap string scalar) :=
  match nrows df with
  | O => Raise IndexError
  | S k => Ok (omap (fun c : list scalar => c !! k) (cols df))
  end.

(** [row[name]] on a row. *)
Definition row_getitem (row : gmap string scalar) (name : string) : res scalar :=
  match row !! name with
  | Some v => Ok v
  | None => Raise (KeyError name)
  end.

(** *** Series operations *)

(** What the source leaves to the installed pandas: whether
    [pct_change] forward-fills missing values first (the default
    [fill_method='pad'] of pandas 1 and 2, gone in pandas 3); whether
    rolling aggregates read an infinity as a missing value; and the value
    the library's running, compensated mean reports for the window of
    width [w] that ends at row [i] of a series ([running_mean w xs i]),
    which agrees with the plain mean of the window up to its last bits. *)
Class PandasVersion := {
  pct_change_pads : bool;
  rolling_drops_inf : bool;
  running_mean : nat -> list float -> nat -> float
}.

Definition series_div (xs ys : list float) : list float :=
  zip_with (fun x y => (x / y)%float) xs ys.

Definition series_gt (xs ys : list float) : list bool :=
  zip_with gt xs ys.

Definition series_gt_scalar (xs : list float) (y : float) : list bool :=
  (fun x => gt x y) <$> xs.

Definition series_ge_scalar (xs : list float) (y : float) : list bool :=
  (fun x => ge x y) <$> xs.

(** [Series.shift(1)]. *)
Definition shift (xs : list float) : list float :=
  take (length xs) (nan :: xs).

(** Forward fill: a NaN takes the last value seen before it. *)
Fixpoint ffill_from (prev : float) (xs : list float) : list float :=
  match xs with
  | [] => []
  | x :: xs' =>
      if is_nan x then prev :: ffill_from prev xs'
      else x :: ffill_from x xs'
  end.

Definition ffill (xs : list float) : list float := ffill_from nan xs.

(** [Series.pct_change()] with its defaults: [data / data.shift(1) - 1],
    on the forward-filled data where the version pads. *)
Definition pct_change {pandas : PandasVersion} (xs : list float) : list float :=
  let data := if pct_change_pads then ffill xs else xs in
  zip_with (fun x p => (x / p - 1)%float) data (shift data).

(** [Series.rolling(window=w)]: the window that ends at row [i], once
    [w] rows are available. *)
Definition window (w i : nat) (xs : list float) : option (list float) :=
  if (i + 1 <? w)%nat then None
  else Some (take w (drop (i + 1 - w) xs)).

(** A window counts when none of its values is missing: a NaN is
    missing, and so is an infinity where the version drops them. *)
Definition void {pandas : PandasVersion} (win : list float) : bool :=
  existsb is_nan win || (rolling_drops_inf && existsb is_infinity win).

(** A rolling aggregate is NaN until the window is full and whenever the
    window holds a missing value; otherwise it is the aggregate of the
    window that ends at the row. *)
Definition rolling {pandas : PandasVersion} (w : nat)
    (agg : nat -> list float -> float) (xs : list float) : list float :=
  imap (fun i _ =>
          match window w i xs with
          | Some win => if void win then nan else agg i win
          | None => nan
          end) xs.

(** The plain mean: the sum, taken left to right, over the length. *)
Definition mean (win : list float) : float :=
  (fold_left (fun s x => s + x) win 0 / float_of_int (Z.of_nat (length win)))%float.

Definition minimum (win : list float) : float :=
  match win with
  | [] => nan
  | x :: rest => Py.min x rest
  end.

Definition rolling_mean {pandas : PandasVersion} (w : nat) (xs : list float)
    : list float :=
  rolling w (fun i _ => running_mean w xs i) xs.

Definition rolling_min {pandas : PandasVersion} (w : nat) (xs : list float)
    : list float :=
  rolling w (fun _ win => minimum win) xs.

(** The plain mean of the window that ends at row [i]. *)
Definition plain_running_mean (w : nat) (xs : list float) (i : nat) : float :=
  mean (take w (drop (i + 1 - w) xs)).

(** The defaults of pandas 1 and 2, and those of pandas 3, for running the
    model; the plain mean stands in for the library's running mean. *)
Definition pandas_2 : PandasVersion :=
  {| pct_change_pads := true; rolling_drops_inf := true;
     running_mean := plain_running_mean |}.
Definition pandas_3 : PandasVersion :=
  {| pct_change_pads := false; rolling_drops_inf := false;
     running_mean := plain_running_mean |}.

End Pandas.
Import Pandas.

(** ** External interfaces *)

(** TA-Lib's indicator kernels, taken as given: [TA_ATR high low close
    timeperiod] and [TA_EMA real timeperiod] return one value per input
    row. *)
Class TALib := {
  TA_ATR : list float -> list float -> list float -> nat -> list float;
  TA_EMA : list float -> nat -> list float
}.

(** [talib.abstract]: the functions called on a frame read their inputs
    from its columns ([high], [low], [close] for ATR; [close] for EMA).
    A frame that lacks some of them is refused with one [Exception] that
    names all the missing ones. *)
Module ta.

Definition missing_keys (dataframe : DataFrame) (names : list string) : list string :=
  List.filter (fun key => match cols dataframe !! key with
                          | None => true
                          | Some _ => false
                          end) names.

Definition set_input_arrays (dataframe : DataFrame) (names : list string) : res unit :=
  match missing_keys dataframe names with
  | [] => Ok tt
  | keys => Raise (Exception keys)
  end.

Definition ATR {talib : TALib} (dataframe : DataFrame) (timeperiod : nat) : res (list float) :=
  _ ← set_input_arrays dataframe ["high"; "low"; "close"]%string;
  high ← numeric dataframe "high";
  low ← numeric dataframe "low";
  close ← numeric dataframe "close";
  Ok (TA_ATR high low close timeperiod).

Definition EMA {talib : TALib} (dataframe : DataFrame) (timeperiod : nat) : res (list float) :=
  _ ← set_input_arrays dataframe ["close"]%string;
  close ← numeric dataframe "close";
  Ok (TA_EMA close timeperiod).

End ta.

(** The host's trade object, as far as the strategy reads it. *)
Record Trade := mkTrade {
  open_rate : float;
  open_date_utc : datetime
}.

(** The host's data provider ([self.dp]): the analyzed frame of a pair and
    timeframe, with the time of its last analysis. *)
Record DataProvider := mkDataProvider {
  get_analyzed_dataframe : string -> string -> DataFrame * datetime
}.

(** ** class ZUUK1m1p *)

Definition timeframe : string := "1m".
Definition stoploss : float := (-0.15)%float.
Definition minimal_roi : list (string * float) := [("0"%string, 0.07%float)].
Definition trailing_stop : bool := true.
Definition trailing_stop_positive : float := 0.05%float.
Definition trailing_stop_positive_offset : float := 0.07%float.
Definition trailing_only_offset_is_reached : bool := true.
Definition startup_candle_count : nat := 200.

Definition populate_indicators {pandas : PandasVersion} {talib : TALib}
    (dataframe : DataFrame)
    (metadata : gmap string string) : res DataFrame :=
  close ← numeric dataframe "close";
  let dataframe := setitem dataframe "price_change" (F <$> pct_change close) in
  atr ← ta.ATR dataframe 14;
  let dataframe := setitem dataframe "atr" (F <$> atr) in
  atr ← numeric dataframe "atr";
  let dataframe := setitem dataframe "long_atr" (F <$> rolling_mean 100 atr) in
  atr ← numeric dataframe "atr";
  long_atr ← numeric dataframe "long_atr";
  let dataframe := setitem dataframe "atr_ratio" (F <$> series_div atr long_atr) in
  ema_short ← ta.EMA dataframe 50;
  let dataframe := setitem dataframe "ema_short" (F <$> ema_short) in
  ema_long ← ta.EMA dataframe 200;
  let dataframe := setitem dataframe "ema_long" (F <$> ema_long) in
  ema_short ← numeric dataframe "ema_short";
  ema_long ← numeric dataframe "ema_long";
  let dataframe := setitem dataframe "uptrend" (B <$> series_gt ema_short ema_long) in
  low ← numeric dataframe "low";
  let dataframe := setitem dataframe "swing_low" (F <$> rolling_min 5 low) in
  Ok dataframe.

(** The [1] assigned to [buy] (and the [0] assigned to [sell]) lands in a
    float64 column, next to NaN in the rows the mask leaves out. *)
Definition populate_buy_trend (dataframe : DataFrame)
    (metadata : gmap string string) : res DataFrame :=
  price_change ← numeric dataframe "price_change";
  loc_setitem dataframe (series_ge_scalar price_change 0.01) "buy" (F 1).

Definition populate_sell_trend (dataframe : DataFrame)
    (metadata : gmap string string) : res DataFrame :=
  close ← numeric dataframe "close";
  loc_setitem dataframe (series_gt_scalar close 0) "sell" (F 0).

(** The local variables of [custom_stoploss] when it reaches its last
    line. *)
Record locals := mkLocals {
  atr_multiplier : float;
  trade_duration : float;
  atr_stoploss_price : float;
  atr_stoploss_pct : float;
  swing_stoploss_price : float;
  swing_stoploss_pct : float;
  stoploss_pct : float
}.

(** The body of [custom_stoploss] from "Get ATR and other indicators" on.
    A cell is turned into a number where the source first does arithmetic
    with it. *)
Definition stoploss_frame (last_candle : gmap string scalar) (trade : Trade)
    (current_time : datetime) (current_rate current_profit : float) : res locals :=
  atr ← row_getitem last_candle "atr";
  atr_ratio ← row_getitem last_candle "atr_ratio";
  uptrend ← row_getitem last_candle "uptrend";
  swing_low ← row_getitem last_candle "swing_low";
  atr_ratio ← to_float atr_ratio;
  let atr_multiplier :=
    (if truthy uptrend then 1.5 * atr_ratio else 1.0 * atr_ratio)%float in
  let atr_multiplier :=
    (if gt current_profit 0.05 then atr_multiplier * 0.8
     else if gt current_profit 0.02 then atr_multiplier * 0.9
     else atr_multiplier)%float in
  let trade_duration :=
    (total_seconds (current_time - open_date_utc trade)%Z / 60)%float in
  let atr_multiplier :=
    (if gt trade_duration 120 then atr_multiplier * 0.8 else atr_multiplier)%float in
  atr ← to_float atr;
  let atr_stoploss_price := (current_rate - atr * atr_multiplier)%float in
  let atr_stoploss_pct :=
    ((atr_stoploss_price - open_rate trade) / open_rate trade)%float in
  swing_low ← to_float swing_low;
  let swing_stoploss_price := (swing_low * 0.99)%float in
  let swing_stoploss_pct :=
    ((swing_stoploss_price - open_rate trade) / open_rate trade)%float in
  let stoploss_pct := Py.max atr_stoploss_pct [swing_stoploss_pct; stoploss] in
  Ok (mkLocals atr_multiplier trade_duration atr_stoploss_price atr_stoploss_pct
        swing_stoploss_price swing_stoploss_pct stoploss_pct).

Definition custom_stoploss (dp : DataProvider) (pair : string) (trade : Trade)
    (current_time : datetime) (current_rate current_profit : float)
    (after_fill : bool) : res pyval :=
  let '(dataframe, _) := get_analyzed_dataframe dp pair timeframe in
  if (len dataframe <? startup_candle_count)%nat then Ok (PyInt 1)
  else
    last_candle ← iloc_last dataframe;
    l ← stoploss_frame last_candle trade current_time current_rate current_profit;
    Ok (PyFloat (stoploss_pct l)).

(** ** Reading frames *)

(** [df[name][i]], when the column exists and has a row [i]. *)
Definition cell (df : DataFrame) (name : string) (i : nat) : option scalar :=
  cols df !! name ≫= (fun c : list scalar => c !! i).

(** The cell of a column in the last row. *)
Definition last_cell (df : DataFrame) (name : string) : option scalar :=
  cell df name (nrows df - 1).

(** The host takes a signal at row [i] when the signal column holds [1]
    there ([dataframe[name] == 1]); an absent column, a NaN or a [0] is no
    signal. *)
Definition flagged (df : DataFrame) (name : string) (i : nat) : bool :=
  match cell df name i with
  | Some v =>
      match to_float v with
      | Ok x => (x =? 1)%float
      | Raise _ => false
      end
  | None => false
  end.

(** A frame of [n] equal rows, for running the model. *)
Definition constant_frame (n : nat) (row : list (string * scalar)) : DataFrame :=
  mkDataFrame n
    (list_to_map ((fun kv : string * scalar => (kv.1, replicate n kv.2)) <$> row)).

(** A data provider that serves one frame for every pair. *)
Definition serving (df : DataFrame) : DataProvider :=
  mkDataProvider (fun _ _ => (df, 0)).

(** ** The stop-loss rule as the specification words it *)

Module Spec.

(** Step 3: the base multiplier. *)
Definition base_multiplier (uptrend : bool) (atr_ratio : float) : float :=
  (if uptrend then 1.5 * atr_ratio else 1.0 * atr_ratio)%float.

(** Step 4: profit-based tightening; the first tier that matches wins. *)
Definition profit_tightening (current_profit m : float) : float :=
  (if gt current_profit 0.05 then m * 0.8
   else if gt current_profit 0.02 then m * 0.9
   else m)%float.

(** Step 5: duration-based tightening. *)
Definition duration_tightening (elapsed_minutes m : float) : float :=
  (if gt elapsed_minutes 120 then m * 0.8 else m)%float.

Definition multiplier (uptrend : bool)
    (atr_ratio current_profit elapsed_minutes : float) : float :=
  duration_tightening elapsed_minutes
    (profit_tightening current_profit (base_multiplier uptrend atr_ratio)).

(** Minutes between the trade's opening and the current time. *)
Definition elapsed_minutes (trade : Trade) (current_time : datetime) : float :=
  (total_seconds (current_time - open_date_utc trade)%Z / 60)%float.

(** Agreement within the tolerance of the specification's examples. *)
Definition close_to (x y : float) : bool := (abs (x - y) <? 1e-9)%float.

End Spec.

(** The frame the data provider serves for a pair. *)
Definition analyzed (dp : DataProvider) (pair : string) : DataFrame :=
  (get_analyzed_dataframe dp pair timeframe).1.

(** The last row of a frame carries the four indicator cells the stop-loss
    reads: [atr], [atr_ratio] and [swing_low] as floats, [uptrend] as it
    is. *)
Definition annotated_last (df : DataFrame) (atr atr_ratio : float)
    (uptrend : scalar) (swing_low : float) : Prop :=
  last_cell df "atr" = Some (F atr) /\
  last_cell df "atr_ratio" = Some (F atr_ratio) /\
  last_cell df "uptrend" = Some uptrend /\
  last_cell df "swing_low" = Some (F swing_low).

(** The columns [populate_indicators] writes, and the candle columns the
    host supplies. *)
Definition derived_columns : list string :=
  ["price_change"; "atr"; "long_atr"; "atr_ratio";
   "ema_short"; "ema_long"; "uptrend"; "swing_low"]%string.

Definition candle_columns : list string :=
  ["date"; "open"; "high"; "low"; "close"; "volume"]%string.

(** A candle as the host supplies it, and the frame of a candle series. *)
Record Candle := mkCandle {
  c_date : datetime;
  c_open : float;
  c_high : float;
  c_low : float;
  c_close : float;
  c_volume : float
}.

Definition frame_of_candles (cs : list Candle) : DataFrame :=
  mkDataFrame (length cs)
    (list_to_map
       [("date"%string, (fun c => T (c_date c)) <$> cs);
        ("open"%string, (fun c => F (c_open c)) <$> cs);
        ("high"%string, (fun c => F (c_high c)) <$> cs);
        ("low"%string, (fun c => F (c_low c)) <$> cs);
        ("close"%string, (fun c => F (c_close c)) <$> cs);
        ("volume"%string, (fun c => F (c_volume c)) <$> cs)]).

(** ** A reference instance of the indicator interface

    Wilder's average true range and the exponential moving average as
    TA-Lib documents them (NaN during the lookback, a simple mean as seed);
    the last bits of TA-Lib's own results may differ.  The properties
    below hold for every instance; this one serves to run the model on
    concrete candle series. *)

Module Reference.

Definition true_range (high low prev_close : float) : float :=
  Py.max (high - low)%float [abs (high - prev_close); abs (low - prev_close)].

(** One true range per row from the second row on. *)
Definition true_ranges (high low close : list float) : list float :=
  zip_with (fun hl pc => true_range hl.1 hl.2 pc) (drop 1 (zip high low)) close.

Fixpoint smooth (n : float) (prev : float) (trs : list float) : list float :=
  match trs with
  | [] => []
  | tr :: trs' =>
      let a := ((prev * (n - 1) + tr) / n)%float in
      a :: smooth n a trs'
  end.

Definition ATR (high low close : list float) (timeperiod : nat) : list float :=
  let trs := true_ranges high low close in
  if (length trs <? timeperiod)%nat then (fun _ => nan) <$> close
  else
    let seed := mean (take timeperiod trs) in
    replicate timeperiod nan
      ++ seed :: smooth (float_of_int (Z.of_nat timeperiod)) seed (drop timeperiod trs).

Fixpoint ema_from (k prev : float) (xs : list float) : list float :=
  match xs with
  | [] => []
  | x :: xs' =>
      let e := ((x - prev) * k + prev)%float in
      e :: ema_from k e xs'
  end.

Definition EMA (real : list float) (timeperiod : nat) : list float :=
  if (length real <? timeperiod)%nat then (fun _ => nan) <$> real
  else
    let seed := mean (take timeperiod real) in
    let k := (2 / (float_of_int (Z.of_nat timeperiod) + 1))%float in
    replicate (timeperiod - 1) nan ++ seed :: ema_from k seed (drop timeperiod real).

End Reference.

Definition reference_talib : TALib :=
  {| TA_ATR := Reference.ATR; TA_EMA := Reference.EMA |}.

(** ** Concrete inputs *)

Module Samples.

Definition minutes (n : Z) : datetime := n * 60000000.

(** A trade opened at 100 at time 0. *)
Definition trade_100 : Trade := mkTrade 100 0.

(** The last candle of the specification's worked example, in a history
    of 200 candles, and in one of 199. *)
Definition example_row : list (string * scalar) :=
  [("atr"%string, F 1.0); ("atr_ratio"%string, F 1.2);
   ("uptrend"%string, B true); ("swing_low"%string, F 103)].
Definition example_frame : DataFrame := constant_frame 200 example_row.
Definition short_frame : DataFrame := constant_frame 199 example_row.

(** The same last candle behind a different history: 250 rows, the
    earlier ones with other indicator values. *)
Definition other_history : DataFrame :=
  mkDataFrame 250
    (list_to_map
       [("atr"%string, replicate 249 (F 7) ++ [F 1.0]);
        ("atr_ratio"%string, replicate 249 (F 0.5) ++ [F 1.2]);
        ("uptrend"%string, replicate 249 (B false) ++ [B true]);
        ("swing_low"%string, replicate 249 (F 90) ++ [F 103])]).

(** A market that fell by a fifth: swing low at 80, downtrend. *)
Definition fallen_frame : DataFrame :=
  constant_frame 200
    [("atr"%string, F 1); ("atr_ratio"%string, F 1);
     ("uptrend"%string, B false); ("swing_low"%string, F 80)].

(** Two one-minute candles: the close goes from 13 to the double just
    below the nearest one to 13.13. *)
Definition two_candles : list Candle :=
  [mkCandle 0 13 13 13 13 1;
   mkCandle 60000000 13 13.2 13 13.129999999999999 1].

(** One candle with a positive close. *)
Definition one_candle : list Candle := [mkCandle 0 100 101 99 100 1].

(** Frames the stop-loss cannot read: one without the [uptrend] column,
    one whose [atr] column holds timestamps. *)
Definition frame_without_uptrend : DataFrame :=
  constant_frame 200
    [("atr"%string, F 1.0); ("atr_ratio"%string, F 1.2); ("swing_low"%string, F 103)].
Definition frame_with_dates : DataFrame :=
  constant_frame 200
    [("atr"%string, T 0); ("atr_ratio"%string, F 1.2);
     ("uptrend"%string, B true); ("swing_low"%string, F 103)].

(** A flat market: 200 equal candles with no range. *)
Definition flat_candles : list Candle := replicate 200 (mkCandle 0 100 100 100 100 0).

End Samples.

(** Further inputs: last rows with an undefined indicator. *)

Module MoreSamples.

(** A last row whose [atr_ratio] is NaN (a flat market: 0/0). *)
Definition nan_ratio_frame : DataFrame :=
  constant_frame 200
    [("atr"%string, F 0); ("atr_ratio"%string, F nan);
     ("uptrend"%string, B false); ("swing_low"%string, F 100)].

(** A last row whose [swing_low] is NaN (a gap in the lows). *)
Definition nan_swing_frame : DataFrame :=
  constant_frame 200
    [("atr"%string, F 1.0); ("atr_ratio"%string, F 1.2);
     ("uptrend"%string, B true); ("swing_low"%string, F nan)].

(** Ten candles with distinct lows. *)
Definition ten_candles : list Candle :=
  (fun n : Z =>
     let x := float_of_int n in
     mkCandle (n * 60000000)%Z (100 + x)%float (102 + x)%float (99 - x)%float
       (101 + x)%float 1)
  <$> [0; 1; 2; 3; 4; 5; 6; 7; 8; 9]%Z.

(** Three analyzed rows: the second rose by 2%, the third fell; the
    first already carries an entry signal and an exit signal. *)
Definition priced_frame : DataFrame :=
  mkDataFrame 3
    (list_to_map
       [("close"%string, [F 100; F 102; F 101]);
        ("price_change"%string, [F nan; F 0.02; F (-0.01)]);
        ("buy"%string, [F 1; F nan; F nan]);
        ("sell"%string, [F 1; F nan; F nan])]).

(** The frame the indicator pass (with the reference indicators) makes of
    a candle series. *)
Definition analyzed_of (cs : list Candle) : DataFrame :=
  match populate_indicators (pandas := pandas_2) (talib := reference_talib)
          (frame_of_candles cs) ∅ with
  | Ok df => df
  | Raise _ => frame_of_candles cs
  end.

Definition ten_analyzed : DataFrame := analyzed_of ten_candles.
Definition flat_analyzed : DataFrame := analyzed_of Samples.flat_candles.

(** A frame of candles that lost its [high] column. *)
Definition frame_without_high : DataFrame :=
  mkDataFrame 1 (list_to_map [("close"%string, [F 100]); ("low"%string, [F 99])]).

(** The ten candles with another open and no volume. *)
Definition ten_candles_variant : list Candle :=
  (fun c => mkCandle (c_date c) (c_close c) (c_high c) (c_low c) (c_close c) 0)
  <$> ten_candles.

Definition variant_analyzed : DataFrame := analyzed_of ten_candles_variant.

(** The three analyzed rows before any signal pass has run. *)
Definition unsigned_frame : DataFrame :=
  mkDataFrame 3
    (list_to_map
       [("close"%string, [F 100; F 102; F 101]);
        ("price_change"%string, [F nan; F 0.02; F (-0.01)])]).

(** An analyzed frame without rows and without signal columns. *)
Definition empty_priced_frame : DataFrame :=
  mkDataFrame 0
    (list_to_map [("close"%string, []); ("price_change"%string, [])]).

(** A frame of candles that lost both [high] and [low]. *)
Definition frame_without_high_low : DataFrame :=
  mkDataFrame 1 (list_to_map [("close"%string, [F 100])]).

End MoreSamples.

(** ** Facts on binary64 comparisons

    The primitive operations are related to their specification on
    [spec_float] by the standard library; the order facts below are proved
    there and carried back. *)

Module FloatFacts.

Local Ltac split_compare :=
  repeat match goal with
  | |- context [Pos.compare_cont Eq ?a ?b] =>
      change (Pos.compare_cont Eq a b) with (Pos.compare a b)
  | H : context [Pos.compare_cont Eq ?a ?b] |- _ =>
      change (Pos.compare_cont Eq a b) with (Pos.compare a b) in H
  end;
  repeat match goal with
  | H : context [Z.compare ?a ?b] |- _ =>
      destruct (Z.compare_spec a b); simpl in H; try discriminate H
  | H : context [Pos.compare ?a ?b] |- _ =>
      destruct (Pos.compare_spec a b); simpl in H; try discriminate H
  end;
  repeat match goal with
  | |- context [Z.compare ?a ?b] => destruct (Z.compare_spec a b); simpl
  | |- context [Pos.compare ?a ?b] => destruct (Pos.compare_spec a b); simpl
  end;
  try reflexivity; try lia.

Lemma SFleb_refl (x : spec_float) : x <> S754_nan -> SFleb x x = true.
Proof.
  unfold SFleb.
  destruct x as [s|s| |s m e]; simpl; try congruence; destruct s; try reflexivity;
    rewrite Z.compare_refl; change (Pos.compare_cont Eq m m) with (Pos.compare m m);
    rewrite Pos.compare_refl; reflexivity.
Qed.

Lemma SFleb_trans (x y z : spec_float) :
  SFleb x y = true -> SFleb y z = true -> SFleb x z = true.
Proof.
  unfold SFleb.
  destruct x as [sx|sx| |sx mx ex], y as [sy|sy| |sy my ey], z as [sz|sz| |sz mz ez];
    simpl; try discriminate; try reflexivity;
    try destruct sx; try destruct sy; try destruct sz; simpl;
    try discriminate; try reflexivity; intros Hxy Hyz; split_compare.
Qed.

Lemma SFltb_leb (x y : spec_float) : SFltb x y = true -> SFleb x y = true.
Proof. unfold SFltb, SFleb. destruct (SFcompare x y) as [[]|]; congruence. Qed.

Lemma SFleb_total (x y : spec_float) :
  x <> S754_nan -> y <> S754_nan -> SFltb y x = false -> SFleb x y = true.
Proof.
  unfold SFltb, SFleb.
  destruct x as [sx|sx| |sx mx ex], y as [sy|sy| |sy my ey];
    simpl; try congruence;
    try destruct sx; try destruct sy; simpl; try congruence;
    intros _ _ H; split_compare.
Qed.

Lemma SFleb_ltb_false (x y : spec_float) : SFleb x y = true -> SFltb y x = false.
Proof.
  unfold SFltb, SFleb.
  destruct x as [sx|sx| |sx mx ex], y as [sy|sy| |sy my ey];
    simpl; try congruence;
    try destruct sx; try destruct sy; simpl; try congruence;
    intros H; split_compare.
Qed.

Lemma SFleb_not_nan (x y : spec_float) :
  SFleb x y = true -> x <> S754_nan /\ y <> S754_nan.
Proof.
  unfold SFleb. destruct x, y; simpl; try discriminate; split; congruence.
Qed.

Lemma is_nan_false (x : float) : is_nan x = false <-> Prim2SF x <> S754_nan.
Proof.
  unfold is_nan. rewrite FloatAxioms.eqb_spec. unfold SFeqb. split.
  - intros H E. rewrite E in H. discriminate H.
  - intros H. destruct (Prim2SF x) as [s|s| |s m e]; simpl; try congruence;
      destruct s; try reflexivity;
      rewrite Z.compare_refl; change (Pos.compare_cont Eq m m) with (Pos.compare m m);
      rewrite Pos.compare_refl; reflexivity.
Qed.

Lemma le_refl (x : float) : is_nan x = false -> le x x = true.
Proof.
  intros H. unfold le. rewrite FloatAxioms.leb_spec. apply SFleb_refl, is_nan_false, H.
Qed.

Lemma le_trans (x y z : float) : le x y = true -> le y z = true -> le x z = true.
Proof. unfold le. rewrite !FloatAxioms.leb_spec. apply SFleb_trans. Qed.

Lemma gt_le (x y : float) : gt x y = true -> le y x = true.
Proof. unfold gt, le. rewrite FloatAxioms.ltb_spec, FloatAxioms.leb_spec. apply SFltb_leb. Qed.

Lemma not_gt_le (x y : float) :
  is_nan x = false -> is_nan y = false -> gt x y = false -> le x y = true.
Proof.
  unfold gt, le. rewrite FloatAxioms.ltb_spec, FloatAxioms.leb_spec, !is_nan_false. apply SFleb_total.
Qed.

Lemma le_not_gt (x y : float) : le x y = true -> gt x y = false.
Proof. unfold gt, le. rewrite FloatAxioms.ltb_spec, FloatAxioms.leb_spec. apply SFleb_ltb_false. Qed.

Lemma le_is_nan (x y : float) : le x y = true -> is_nan x = false /\ is_nan y = false.
Proof.
  unfold le. rewrite FloatAxioms.leb_spec, !is_nan_false. apply SFleb_not_nan.
Qed.

Lemma gt_is_nan (x y : float) : gt x y = true -> is_nan x = false /\ is_nan y = false.
Proof. intros H. apply gt_le, le_is_nan in H. tauto. Qed.

(** Dividing by a zero never gives a finite number: the quotient is NaN
    or an infinity. *)
Lemma div_zero_not_finite (x y : float) :
  (y =? 0)%float = true -> is_finite (x / y)%float = false.
Proof.
  intros Hy. rewrite FloatAxioms.eqb_spec in Hy.
  change (Prim2SF 0%float) with (S754_zero false) in Hy.
  unfold is_finite, is_infinity, is_nan.
  rewrite !FloatAxioms.eqb_spec, FloatAxioms.abs_spec, FloatAxioms.div_spec.
  change (Prim2SF infinity) with (S754_infinity false).
  unfold SF64div.
  destruct (Prim2SF y) as [sy|sy| |sy my ey];
    [ | destruct sy; discriminate Hy | discriminate Hy | destruct sy; discriminate Hy ].
  destruct (Prim2SF x) as [[]|[]| |[] mx ex], sy; reflexivity.
Qed.

End FloatFacts.

(** ** The numeric model by example *)

Section ByExample.

(** The builtin [max] keeps its first argument when that one is NaN and
    skips a NaN met later. *)
Example max_with_nan :
  Py.max nan [1; 2]%float = nan /\
  Py.max 1 [nan; 2]%float = 2%float /\
  Py.max (-0.5) [(-0.7)%float; stoploss] = stoploss.
Proof. repeat split; vm_compute; reflexivity. Qed.

(** Ten minutes are 600 seconds; int division is correctly rounded even
    where the operands are not exact floats. *)
Example total_seconds_of_ten_minutes :
  total_seconds 600000000 = 600%float /\
  int_truediv 18014398509481985 3 = 6004799503160662%float.
Proof. repeat split; vm_compute; reflexivity. Qed.

(** pandas: shifting, percentage change with and without forward fill,
    rolling windows with a NaN and with an infinity, and division by
    zero. *)
Example series_operations :
  shift [1; 2; 3]%float = [nan; 1; 2]%float /\
  pct_change (pandas := pandas_2) [1; nan; 3; 4.5]%float = [nan; 0; 2; 0.5]%float /\
  pct_change (pandas := pandas_3) [1; nan; 3; 4.5]%float = [nan; nan; nan; 0.5]%float /\
  rolling_min (pandas := pandas_2) 3 [5; 4; 3; nan; 7; 8; 9; 1]%float
  = [nan; nan; 3; nan; nan; nan; 7; 1]%float /\
  rolling_min (pandas := pandas_3) 3 [5; 4; 3; nan; 7; 8; 9; 1]%float
  = [nan; nan; 3; nan; nan; nan; 7; 1]%float /\
  rolling_mean (pandas := pandas_2) 3 [5; 4; 3; nan; 7; 8; 9; 1]%float
  = [nan; nan; 4; nan; nan; nan; 8; 6]%float /\
  rolling_min (pandas := pandas_2) 2 [1; infinity; 3]%float = [nan; nan; nan]%float /\
  rolling_min (pandas := pandas_3) 2 [1; infinity; 3]%float = [nan; 1; 3]%float /\
  series_div [1; 0; -1]%float [0; 0; 0]%float = [infinity; nan; neg_infinity].
Proof. repeat split; vm_compute; reflexivity. Qed.

End ByExample.

(** ** Lemmas on [custom_stoploss] *)

Section StoplossLemmas.

Context (dp : DataProvider) (pair : string) (trade : Trade).
Context (current_time : datetime) (current_rate current_profit : float).
Context (after_fill : bool).

Lemma custom_stoploss_short :
  (len (analyzed dp pair) < startup_candle_count)%nat ->
  custom_stoploss dp pair trade current_time current_rate current_profit after_fill
  = Ok (PyInt 1).
Proof.
  unfold custom_stoploss, analyzed.
  destruct (get_analyzed_dataframe dp pair timeframe) as [df t0]; simpl.
  intros Hlen. apply Nat.ltb_lt in Hlen. rewrite Hlen. reflexivity.
Qed.

Lemma iloc_last_cells (df : DataFrame) :
  (0 < nrows df)%nat ->
  exists row, iloc_last df = Ok row /\ forall name, row !! name = last_cell df name.
Proof.
  unfold iloc_last, last_cell, cell. destruct (nrows df) as [|k]; [lia|].
  intros _. eexists. split; [reflexivity|].
  intros name. rewrite lookup_omap. replace (S k - 1)%nat with k by lia. reflexivity.
Qed.

Lemma custom_stoploss_long :
  (startup_candle_count <= len (analyzed dp pair))%nat ->
  exists last_candle,
    iloc_last (analyzed dp pair) = Ok last_candle /\
    (forall name, last_candle !! name = last_cell (analyzed dp pair) name) /\
    custom_stoploss dp pair trade current_time current_rate current_profit after_fill
    = (l ← stoploss_frame last_candle trade current_time current_rate current_profit;
       Ok (PyFloat (stoploss_pct l))).
Proof.
  unfold custom_stoploss, analyzed, startup_candle_count, len.
  destruct (get_analyzed_dataframe dp pair timeframe) as [df t0]; simpl.
  intros Hlen.
  destruct (iloc_last_cells df) as (row & Hrow & Hcells); [lia|].
  exists row. split; [exact Hrow|]. split; [exact Hcells|].
  replace (nrows df <? 200)%nat with false by (symmetry; apply Nat.ltb_ge; exact Hlen).
  rewrite Hrow. reflexivity.
Qed.

(** With the four cells present and the three numeric ones readable as
    numbers, the body runs to its last line; its locals are related as the
    source computes them. *)
Lemma stoploss_frame_runs (last_candle : gmap string scalar)
    (v_atr v_ratio v_up v_swing : scalar) (atr atr_ratio swing_low : float) :
  last_candle !! "atr" = Some v_atr ->
  last_candle !! "atr_ratio" = Some v_ratio ->
  last_candle !! "uptrend" = Some v_up ->
  last_candle !! "swing_low" = Some v_swing ->
  to_float v_atr = Ok atr ->
  to_float v_ratio = Ok atr_ratio ->
  to_float v_swing = Ok swing_low ->
  exists l,
    stoploss_frame last_candle trade current_time current_rate current_profit = Ok l /\
    trade_duration l = Spec.elapsed_minutes trade current_time /\
    atr_multiplier l
    = Spec.multiplier (truthy v_up) atr_ratio current_profit (trade_duration l) /\
    atr_stoploss_price l = (current_rate - atr * atr_multiplier l)%float /\
    atr_stoploss_pct l
    = ((atr_stoploss_price l - open_rate trade) / open_rate trade)%float /\
    swing_stoploss_price l = (swing_low * 0.99)%float /\
    swing_stoploss_pct l
    = ((swing_stoploss_price l - open_rate trade) / open_rate trade)%float /\
    stoploss_pct l = Py.max (atr_stoploss_pct l) [swing_stoploss_pct l; stoploss].
Proof.
  intros Ha Hr Hu Hs Fa Fr Fs.
  unfold stoploss_frame, row_getitem. rewrite Ha, Hr, Hu, Hs. simpl.
  rewrite Fr. simpl. rewrite Fa. simpl. rewrite Fs. simpl.
  eexists. split; [reflexivity|]. simpl.
  repeat split; reflexivity.
Qed.

(** The body reads its row through four keys only. *)
Lemma stoploss_frame_ext (row1 row2 : gmap string scalar) :
  row1 !! "atr" = row2 !! "atr" ->
  row1 !! "atr_ratio" = row2 !! "atr_ratio" ->
  row1 !! "uptrend" = row2 !! "uptrend" ->
  row1 !! "swing_low" = row2 !! "swing_low" ->
  stoploss_frame row1 trade current_time current_rate current_profit
  = stoploss_frame row2 trade current_time current_rate current_profit.
Proof.
  intros Ha Hr Hu Hs. unfold stoploss_frame, row_getitem.
  rewrite Ha, Hr, Hu, Hs. reflexivity.
Qed.

End StoplossLemmas.

(** ** The builtin [max] on three floats *)

Section Max3.

Import FloatFacts.

Context (a s f : float).

Lemma max3_is_one : Py.max a [s; f] = a \/ Py.max a [s; f] = s \/ Py.max a [s; f] = f.
Proof.
  unfold Py.max; simpl.
  destruct (gt s a); [destruct (gt f s) | destruct (gt f a)]; auto.
Qed.

Lemma max2_is_one : Py.max a [s] = a \/ Py.max a [s] = s.
Proof. unfold Py.max; simpl. destruct (gt s a); auto. Qed.

Lemma max3_upper :
  is_nan a = false -> is_nan s = false -> is_nan f = false ->
  le a (Py.max a [s; f]) = true /\
  le s (Py.max a [s; f]) = true /\
  le f (Py.max a [s; f]) = true.
Proof.
  intros Na Ns Nf. unfold Py.max; simpl.
  destruct (gt s a) eqn:Esa.
  - destruct (gt f s) eqn:Efs.
    + repeat split.
      * apply (le_trans a s f); apply gt_le; assumption.
      * apply gt_le, Efs.
      * apply le_refl, Nf.
    + repeat split.
      * apply gt_le, Esa.
      * apply le_refl, Ns.
      * apply not_gt_le; assumption.
  - destruct (gt f a) eqn:Efa.
    + repeat split.
      * apply gt_le, Efa.
      * apply (le_trans s a f); [apply not_gt_le; assumption | apply gt_le, Efa].
      * apply le_refl, Nf.
    + repeat split.
      * apply le_refl, Na.
      * apply not_gt_le; assumption.
      * apply not_gt_le; assumption.
Qed.

Lemma max2_not_nan :
  is_nan a = false -> is_nan s = false -> is_nan (Py.max a [s]) = false.
Proof. destruct max2_is_one as [E|E]; rewrite E; auto. Qed.

(** The result is at most the greater of the first two exactly when that
    one is at least the third. *)
Lemma max3_le_max2 :
  is_nan a = false -> is_nan s = false -> is_nan f = false ->
  le (Py.max a [s; f]) (Py.max a [s]) = ge (Py.max a [s]) f.
Proof.
  intros Na Ns Nf.
  assert (Nm : is_nan (Py.max a [s]) = false) by (apply max2_not_nan; assumption).
  change (Py.max a [s; f])
    with (if gt f (Py.max a [s]) then f else Py.max a [s]).
  unfold ge. fold (le f (Py.max a [s])).
  destruct (gt f (Py.max a [s])) eqn:E.
  - reflexivity.
  - rewrite (le_refl _ Nm). symmetry. apply not_gt_le; assumption.
Qed.

End Max3.

Lemma max3_nan_first (a s f : float) :
  is_nan a = true -> Py.max a [s; f] = a.
Proof.
  intros Na. unfold Py.max; simpl.
  destruct (gt s a) eqn:Esa.
  - apply FloatFacts.gt_is_nan in Esa. destruct Esa as [_ Esa]. congruence.
  - destruct (gt f a) eqn:Efa; [|reflexivity].
    apply FloatFacts.gt_is_nan in Efa. destruct Efa as [_ Efa]. congruence.
Qed.

(** The first and the last argument bound the result from below even
    when the middle one is NaN. *)
Lemma max3_lower (a s f : float) :
  is_nan a = false -> is_nan f = false ->
  le a (Py.max a [s; f]) = true /\ le f (Py.max a [s; f]) = true.
Proof.
  intros Na Nf. destruct (is_nan s) eqn:Ns.
  - assert (Esa : gt s a = false).
    { destruct (gt s a) eqn:E; [|reflexivity].
      apply FloatFacts.gt_is_nan in E. destruct E as [E _]. congruence. }
    unfold Py.max; simpl. rewrite Esa.
    destruct (gt f a) eqn:Efa.
    + split; [apply FloatFacts.gt_le, Efa | apply FloatFacts.le_refl, Nf].
    + split; [apply FloatFacts.le_refl, Na | apply FloatFacts.not_gt_le; assumption].
  - destruct (max3_upper a s f Na Ns Nf) as (Ua & _ & Uf). split; assumption.
Qed.

(** ** [custom_stoploss] *)

Section CustomStoploss.

Context (dp : DataProvider) (pair : string) (trade : Trade).
Context (current_time : datetime) (current_rate current_profit : float).
Context (after_fill : bool).

Local Abbreviation run :=
  (custom_stoploss dp pair trade current_time current_rate current_profit after_fill).
Local Abbreviation body row :=
  (stoploss_frame row trade current_time current_rate current_profit).

(** With 200 candles or more and an annotated last row the function runs
    its whole body and returns the float [stoploss_pct]. *)
Lemma custom_stoploss_runs (atr atr_ratio : float) (uptrend : scalar) (swing_low : float) :
  (startup_candle_count <= len (analyzed dp pair))%nat ->
  annotated_last (analyzed dp pair) atr atr_ratio uptrend swing_low ->
  exists last_candle l,
    iloc_last (analyzed dp pair) = Ok last_candle /\
    last_candle !! "atr" = Some (F atr) /\
    last_candle !! "atr_ratio" = Some (F atr_ratio) /\
    last_candle !! "uptrend" = Some uptrend /\
    last_candle !! "swing_low" = Some (F swing_low) /\
    body last_candle = Ok l /\
    run = Ok (PyFloat (stoploss_pct l)).
Proof.
  intros Hlen (Ha & Hr & Hu & Hs).
  destruct (custom_stoploss_long dp pair trade current_time current_rate
              current_profit after_fill Hlen) as (row & Hrow & Hcells & Hrun).
  rewrite <- Hcells in Ha, Hr, Hu, Hs.
  destruct (stoploss_frame_runs trade current_time current_rate current_profit
              row _ _ _ _ atr atr_ratio swing_low Ha Hr Hu Hs eq_refl eq_refl eq_refl)
    as (l & Hl & _).
  exists row, l. rewrite Hrun, Hl. repeat split; assumption.
Qed.

(** C2: with fewer than 200 annotated candles [custom_stoploss] returns
    exactly the neutral sentinel [1], whatever the trade, the time, the
    rate and the profit are. *)
Theorem custom_stoploss_short_history :
  (len (analyzed dp pair) < 200)%nat ->
  run = Ok (PyInt 1).
Proof. apply custom_stoploss_short. Qed.

(** C3 (amended): with at least 200 candles the returned value is the
    greatest of the atr-based fraction, the swing-based fraction and the
    floor -0.15.  It is one of the three.  When the atr-based fraction is a
    number (not NaN) the value is at least -0.15 and at least that
    fraction; when the swing-based fraction is a number too, the value is
    at least the greater of the two fractions, and it is at most the
    greater of the two exactly when that one is at least -0.15. *)
Theorem custom_stoploss_is_greatest
    (atr atr_ratio : float) (uptrend : scalar) (swing_low : float) :
  (startup_candle_count <= len (analyzed dp pair))%nat ->
  annotated_last (analyzed dp pair) atr atr_ratio uptrend swing_low ->
  exists last_candle l,
    iloc_last (analyzed dp pair) = Ok last_candle /\
    body last_candle = Ok l /\
    run = Ok (PyFloat (stoploss_pct l)) /\
    (stoploss_pct l = atr_stoploss_pct l \/
     stoploss_pct l = swing_stoploss_pct l \/
     stoploss_pct l = stoploss) /\
    (is_nan (atr_stoploss_pct l) = false ->
     ge (stoploss_pct l) stoploss = true /\
     ge (stoploss_pct l) (atr_stoploss_pct l) = true) /\
    (is_nan (atr_stoploss_pct l) = false ->
     is_nan (swing_stoploss_pct l) = false ->
     ge (stoploss_pct l) (swing_stoploss_pct l) = true /\
     ge (stoploss_pct l) (Py.max (atr_stoploss_pct l) [swing_stoploss_pct l]) = true /\
     le (stoploss_pct l) (Py.max (atr_stoploss_pct l) [swing_stoploss_pct l])
     = ge (Py.max (atr_stoploss_pct l) [swing_stoploss_pct l]) stoploss).
Proof.
  intros Hlen Hann.
  destruct (custom_stoploss_runs _ _ _ _ Hlen Hann)
    as (row & l & Hrow & Ha & Hr & Hu & Hs & Hl & Hrun).
  destruct (stoploss_frame_runs trade current_time current_rate current_profit
              row _ _ _ _ atr atr_ratio swing_low Ha Hr Hu Hs eq_refl eq_refl eq_refl)
    as (l' & Hl' & _ & _ & _ & _ & _ & _ & Hmax).
  rewrite Hl in Hl'. injection Hl' as <-.
  exists row, l. repeat (split; [assumption|]).
  assert (Nf : is_nan stoploss = false) by reflexivity.
  rewrite Hmax. split; [apply max3_is_one|]. split.
  - intros Na. destruct (max3_lower _ (swing_stoploss_pct l) _ Na Nf) as (Ua & Uf).
    split; assumption.
  - intros Na Ns. destruct (max3_upper _ _ _ Na Ns Nf) as (Ua & Us & Uf).
    unfold ge. split; [exact Us|]. split.
    + destruct (max2_is_one (atr_stoploss_pct l) (swing_stoploss_pct l)) as [E|E];
        rewrite E; assumption.
    + apply max3_le_max2; assumption.
Qed.

(** C4: with at least 200 candles the multiplier is the one the
    specification describes: the base [1.5 * atr_ratio] in an uptrend and
    [1.0 * atr_ratio] otherwise; times 0.8 when the profit exceeds 0.05,
    else times 0.9 when it exceeds 0.02 (one tier at most, the first that
    matches); then, independently, times 0.8 when more than 120 minutes
    have passed since the trade was opened. *)
Theorem custom_stoploss_multiplier
    (atr atr_ratio : float) (uptrend : scalar) (swing_low : float) :
  (startup_candle_count <= len (analyzed dp pair))%nat ->
  annotated_last (analyzed dp pair) atr atr_ratio uptrend swing_low ->
  exists last_candle l,
    iloc_last (analyzed dp pair) = Ok last_candle /\
    body last_candle = Ok l /\
    run = Ok (PyFloat (stoploss_pct l)) /\
    trade_duration l = Spec.elapsed_minutes trade current_time /\
    atr_multiplier l
    = Spec.duration_tightening (Spec.elapsed_minutes trade current_time)
        (Spec.profit_tightening current_profit
           (Spec.base_multiplier (truthy uptrend) atr_ratio)) /\
    atr_stoploss_price l = (current_rate - atr * atr_multiplier l)%float.
Proof.
  intros Hlen Hann.
  destruct (custom_stoploss_runs _ _ _ _ Hlen Hann)
    as (row & l & Hrow & Ha & Hr & Hu & Hs & Hl & Hrun).
  destruct (stoploss_frame_runs trade current_time current_rate current_profit
              row _ _ _ _ atr atr_ratio swing_low Ha Hr Hu Hs eq_refl eq_refl eq_refl)
    as (l' & Hl' & Hd & Hm & Hp & _).
  rewrite Hl in Hl'. injection Hl' as <-.
  exists row, l. repeat (split; [assumption|]).
  split; [|assumption].
  rewrite Hm, Hd. reflexivity.
Qed.

(** C10: with at least 200 candles, a last row whose [atr], [atr_ratio]
    and [swing_low] are finite numbers and a trade whose open rate is not
    zero, [custom_stoploss] raises nothing and returns a float. *)
Theorem custom_stoploss_returns
    (atr atr_ratio : float) (uptrend : scalar) (swing_low : float) :
  (startup_candle_count <= len (analyzed dp pair))%nat ->
  annotated_last (analyzed dp pair) atr atr_ratio uptrend swing_low ->
  is_finite atr = true ->
  is_finite atr_ratio = true ->
  is_finite swing_low = true ->
  (open_rate trade =? 0)%float = false ->
  exists x : float, run = Ok (PyFloat x).
Proof.
  intros Hlen Hann _ _ _ _.
  destruct (custom_stoploss_runs _ _ _ _ Hlen Hann)
    as (row & l & _ & _ & _ & _ & _ & _ & Hrun).
  exists (stoploss_pct l). exact Hrun.
Qed.

End CustomStoploss.

(** C9: two histories of at least 200 candles whose last rows agree on
    [atr], [atr_ratio], [uptrend] and [swing_low] give the same result for
    the same trade, time, rate and profit. *)
Theorem custom_stoploss_last_row_only
    (dp1 dp2 : DataProvider) (pair1 pair2 : string) (trade : Trade)
    (current_time : datetime) (current_rate current_profit : float)
    (after_fill1 after_fill2 : bool) :
  (startup_candle_count <= len (analyzed dp1 pair1))%nat ->
  (startup_candle_count <= len (analyzed dp2 pair2))%nat ->
  (forall name, name ∈ ["atr"; "atr_ratio"; "uptrend"; "swing_low"]%string ->
     last_cell (analyzed dp1 pair1) name = last_cell (analyzed dp2 pair2) name) ->
  custom_stoploss dp1 pair1 trade current_time current_rate current_profit after_fill1
  = custom_stoploss dp2 pair2 trade current_time current_rate current_profit after_fill2.
Proof.
  intros Hlen1 Hlen2 Hsame.
  destruct (custom_stoploss_long dp1 pair1 trade current_time current_rate
              current_profit after_fill1 Hlen1) as (row1 & _ & Hcells1 & ->).
  destruct (custom_stoploss_long dp2 pair2 trade current_time current_rate
              current_profit after_fill2 Hlen2) as (row2 & _ & Hcells2 & ->).
  rewrite (stoploss_frame_ext trade current_time current_rate current_profit row1 row2);
    [reflexivity| | | |];
    rewrite Hcells1, Hcells2; apply Hsame; set_solver.
Qed.

(** *** Runs on concrete inputs *)

Section Runs.

Import Samples.

Lemma custom_stoploss_short_history_witness :
  custom_stoploss (serving short_frame) "BTC/USDT" trade_100 (minutes 10) 105 0.03 false
  = Ok (PyInt 1).
Proof.
  apply (custom_stoploss_short_history (serving short_frame) "BTC/USDT" trade_100
           (minutes 10) 105 0.03 false).
  vm_compute. lia.
Defined.

(** C5: the worked example of the specification.  The locals at the last
    line are the doubles shown; each agrees with the decimal of the
    specification within 1e-9, and the result is the atr-based fraction,
    0.0338. *)
Theorem custom_stoploss_spec_example :
  custom_stoploss (serving example_frame) "BTC/USDT" trade_100 (minutes 10) 105 0.03 false
  = Ok (PyFloat 0.033799999999999955) /\
  (last_candle ← iloc_last example_frame;
   stoploss_frame last_candle trade_100 (minutes 10) 105 0.03)
  = Ok {| atr_multiplier := 1.6199999999999999;
          trade_duration := 10;
          atr_stoploss_price := 103.38;
          atr_stoploss_pct := 0.033799999999999955;
          swing_stoploss_price := 101.97;
          swing_stoploss_pct := 0.019699999999999988;
          stoploss_pct := 0.033799999999999955 |} /\
  (1.5 * 1.2 * 0.9 = 1.6199999999999999)%float /\
  Spec.close_to 1.6199999999999999 1.62 = true /\
  Spec.close_to 0.019699999999999988 0.0197 = true /\
  Spec.close_to 0.033799999999999955 0.0338 = true /\
  Py.max 0.033799999999999955 [0.019699999999999988%float; stoploss]
  = 0.033799999999999955%float.
Proof. repeat split; vm_compute; reflexivity. Qed.

(** C3, as stated, fails: after a fall to 80 on a trade opened at 100 both
    fractions are near -0.21, the function returns the floor -0.15, and
    that is greater than the greater of the two fractions. *)
Lemma custom_stoploss_above_both_fractions :
  (startup_candle_count <= len (analyzed (serving fallen_frame) "BTC/USDT"))%nat /\
  custom_stoploss (serving fallen_frame) "BTC/USDT" trade_100 (minutes 10) 80 (-0.2) false
  = Ok (PyFloat (-0.15)) /\
  (last_candle ← iloc_last fallen_frame;
   l ← stoploss_frame last_candle trade_100 (minutes 10) 80 (-0.2);
   Ok (atr_stoploss_pct l, swing_stoploss_pct l))
  = Ok ((-0.21)%float, (-0.20799999999999996)%float) /\
  Py.max (-0.21) [(-0.20799999999999996)%float] = (-0.20799999999999996)%float /\
  le (-0.15) (Py.max (-0.21) [(-0.20799999999999996)%float]) = false.
Proof.
  split; [vm_compute; lia|]. repeat split; vm_compute; reflexivity.
Qed.

Lemma example_frame_long :
  (startup_candle_count <= len (analyzed (serving example_frame) "BTC/USDT"))%nat.
Proof. vm_compute. lia. Defined.

Lemma example_frame_annotated :
  annotated_last (analyzed (serving example_frame) "BTC/USDT") 1.0 1.2 (B true) 103.
Proof. repeat split; vm_compute; reflexivity. Defined.

Lemma custom_stoploss_is_greatest_witness :
  exists last_candle l,
    iloc_last example_frame = Ok last_candle /\
    stoploss_frame last_candle trade_100 (minutes 10) 105 0.03 = Ok l /\
    custom_stoploss (serving example_frame) "BTC/USDT" trade_100 (minutes 10) 105 0.03 false
    = Ok (PyFloat (stoploss_pct l)) /\
    (stoploss_pct l = atr_stoploss_pct l \/
     stoploss_pct l = swing_stoploss_pct l \/
     stoploss_pct l = stoploss) /\
    (is_nan (atr_stoploss_pct l) = false ->
     ge (stoploss_pct l) stoploss = true /\
     ge (stoploss_pct l) (atr_stoploss_pct l) = true) /\
    (is_nan (atr_stoploss_pct l) = false ->
     is_nan (swing_stoploss_pct l) = false ->
     ge (stoploss_pct l) (swing_stoploss_pct l) = true /\
     ge (stoploss_pct l) (Py.max (atr_stoploss_pct l) [swing_stoploss_pct l]) = true /\
     le (stoploss_pct l) (Py.max (atr_stoploss_pct l) [swing_stoploss_pct l])
     = ge (Py.max (atr_stoploss_pct l) [swing_stoploss_pct l]) stoploss).
Proof.
  exact (custom_stoploss_is_greatest (serving example_frame) "BTC/USDT" trade_100
           (minutes 10) 105 0.03 false 1.0 1.2 (B true) 103
           example_frame_long example_frame_annotated).
Defined.

Lemma custom_stoploss_multiplier_witness :
  exists last_candle l,
    iloc_last example_frame = Ok last_candle /\
    stoploss_frame last_candle trade_100 (minutes 10) 105 0.03 = Ok l /\
    custom_stoploss (serving example_frame) "BTC/USDT" trade_100 (minutes 10) 105 0.03 false
    = Ok (PyFloat (stoploss_pct l)) /\
    trade_duration l = Spec.elapsed_minutes trade_100 (minutes 10) /\
    atr_multiplier l
    = Spec.duration_tightening (Spec.elapsed_minutes trade_100 (minutes 10))
        (Spec.profit_tightening 0.03 (Spec.base_multiplier (truthy (B true)) 1.2)) /\
    atr_stoploss_price l = (105 - 1.0 * atr_multiplier l)%float.
Proof.
  exact (custom_stoploss_multiplier (serving example_frame) "BTC/USDT" trade_100
           (minutes 10) 105 0.03 false 1.0 1.2 (B true) 103
           example_frame_long example_frame_annotated).
Defined.

Lemma custom_stoploss_returns_witness :
  exists x : float,
    custom_stoploss (serving example_frame) "BTC/USDT" trade_100 (minutes 10) 105 0.03 false
    = Ok (PyFloat x).
Proof.
  apply (custom_stoploss_returns (serving example_frame) "BTC/USDT" trade_100
           (minutes 10) 105 0.03 false 1.0 1.2 (B true) 103
           example_frame_long example_frame_annotated);
    vm_compute; reflexivity.
Defined.

Lemma custom_stoploss_last_row_only_witness :
  custom_stoploss (serving example_frame) "BTC/USDT" trade_100 (minutes 10) 105 0.03 false
  = custom_stoploss (serving other_history) "ETH/USDT" trade_100 (minutes 10) 105 0.03 true.
Proof.
  apply (custom_stoploss_last_row_only (serving example_frame) (serving other_history)
           "BTC/USDT" "ETH/USDT" trade_100 (minutes 10) 105 0.03 false true).
  - vm_compute. lia.
  - vm_compute. lia.
  - intros name Hname.
    repeat (apply elem_of_cons in Hname; destruct Hname as [->|Hname];
            [vm_compute; reflexivity|]).
    apply elem_of_nil in Hname. destruct Hname.
Defined.

(** Where the model raises: a missing column is a [KeyError], arithmetic
    on a timestamp a [TypeError], a missing [close] column stops
    [populate_indicators]. *)
Example raising_runs :
  custom_stoploss (serving frame_without_uptrend) "BTC/USDT" trade_100 (minutes 10)
    105 0.03 false
  = Raise (KeyError "uptrend") /\
  custom_stoploss (serving frame_with_dates) "BTC/USDT" trade_100 (minutes 10)
    105 0.03 false
  = Raise TypeError /\
  populate_indicators (pandas := pandas_2) (talib := reference_talib) example_frame ∅
  = Raise (KeyError "close").
Proof. repeat split; vm_compute; reflexivity. Qed.

(** The tiers of the profit tightening exclude each other, and the
    duration tightening applies on top of either. *)
Example tiers_exclusive :
  Spec.profit_tightening 0.06 1 = 0.8%float /\
  Spec.profit_tightening 0.03 1 = 0.9%float /\
  Spec.profit_tightening 0.02 1 = 1%float /\
  Spec.duration_tightening 121 (Spec.profit_tightening 0.06 1) = (0.8 * 0.8)%float /\
  Spec.elapsed_minutes trade_100 (minutes 120) = 120%float /\
  Spec.duration_tightening (Spec.elapsed_minutes trade_100 (minutes 120)) 1 = 1%float /\
  Spec.duration_tightening (Spec.elapsed_minutes trade_100 (minutes 120 + 1)) 1 = 0.8%float.
Proof. repeat split; vm_compute; reflexivity. Qed.

End Runs.

(** ** Frames: reading back what was written *)

Section FrameLemmas.

Lemma bind_Ok {A B : Type} (a : A) (k : A -> res B) : (Ok a ≫= k) = k a.
Proof. reflexivity. Qed.

Lemma to_floats_F (xs : list float) : to_floats (F <$> xs) = Ok xs.
Proof.
  induction xs as [|x xs IH]; [reflexivity|].
  change (to_floats (F <$> x :: xs))
    with (to_floats (F <$> xs) ≫= fun ys => Ok (x :: ys)).
  rewrite IH. reflexivity.
Qed.

Lemma to_floats_lookup (c : list scalar) (xs : list float) (i : nat) :
  to_floats c = Ok xs ->
  xs !! i = (c !! i) ≫= (fun v => match to_float v with Ok x => Some x | Raise _ => None end).
Proof.
  revert xs i. induction c as [|v c IH]; intros xs i.
  - simpl. intros [= <-]. reflexivity.
  - simpl. destruct (to_float v) as [x|e] eqn:Ev; [|discriminate].
    rewrite bind_Ok. destruct (to_floats c) as [ys|e]; [|discriminate].
    rewrite bind_Ok. intros [= <-].
    destruct i as [|i]; simpl.
    + rewrite Ev. reflexivity.
    + apply (IH ys i eq_refl).
Qed.

Lemma to_floats_length (c : list scalar) (xs : list float) :
  to_floats c = Ok xs -> length xs = length c.
Proof.
  revert xs. induction c as [|v c IH]; intros xs.
  - simpl. intros [= <-]. reflexivity.
  - simpl. destruct (to_float v) as [x|e]; [|discriminate].
    rewrite bind_Ok. destruct (to_floats c) as [ys|e]; [|discriminate].
    rewrite bind_Ok. intros [= <-]. simpl. f_equal. apply IH. reflexivity.
Qed.

Lemma nrows_setitem (df : DataFrame) (name : string) (c : list scalar) :
  nrows (setitem df name c) = nrows df.
Proof. reflexivity. Qed.

Lemma numeric_setitem_eq (df : DataFrame) (name : string) (xs : list float) :
  numeric (setitem df name (F <$> xs)) name = Ok (resize (nrows df) nan xs).
Proof.
  unfold numeric, getitem, setitem; simpl.
  rewrite lookup_insert_eq, bind_Ok, <- (fmap_resize F). apply to_floats_F.
Qed.

Lemma numeric_setitem_ne (df : DataFrame) (name name' : string) (c : list scalar) :
  name' <> name ->
  numeric (setitem df name' c) name = numeric df name.
Proof.
  intros Hne. unfold numeric, getitem, setitem; simpl.
  rewrite lookup_insert_ne by exact Hne. reflexivity.
Qed.

Lemma lookup_resize_default {A : Type} (l : list A) (n : nat) (x : A) (i : nat) :
  (i < n)%nat -> resize n x l !! i = Some (default x (l !! i)).
Proof.
  intros Hi. destruct (decide (i < length l)%nat) as [Hl|Hl].
  - rewrite lookup_resize by assumption.
    destruct (lookup_lt_is_Some_2 l i Hl) as [y Hy]. rewrite Hy. reflexivity.
  - rewrite lookup_resize_new by lia.
    rewrite (lookup_ge_None_2 l i) by lia. reflexivity.
Qed.

(** The cell [df.loc[mask, name] = v] leaves at row [i]. *)
Lemma cell_loc_assign (df : DataFrame) (mask : list bool) (name : string)
    (v : scalar) (i : nat) :
  (i < nrows df)%nat ->
  cell (loc_assign df mask name v) name i
  = Some (if default false (mask !! i) then v
          else default (F nan) (cell df name i)).
Proof.
  intros Hi. unfold cell, loc_assign; simpl.
  rewrite lookup_insert_eq; simpl.
  rewrite list_lookup_imap, lookup_resize_default by exact Hi. simpl.
  destruct (cols df !! name) as [c|]; simpl; reflexivity.
Qed.

Lemma cell_loc_assign_out (df : DataFrame) (mask : list bool) (name : string)
    (v : scalar) (i : nat) :
  (nrows df <= i)%nat ->
  cell (loc_assign df mask name v) name i = None.
Proof.
  intros Hi. unfold cell, loc_assign; simpl.
  rewrite lookup_insert_eq; simpl.
  rewrite list_lookup_imap, lookup_resize_old by exact Hi. reflexivity.
Qed.

(** The assignment is accepted on a frame that has rows, and on any
    frame that has the column already; it is refused on a frame without
    rows that lacks the column. *)
Lemma loc_setitem_ok (df : DataFrame) (mask : list bool) (name : string) (v : scalar) :
  (0 < nrows df)%nat \/ is_Some (cols df !! name) ->
  loc_setitem df mask name v = Ok (loc_assign df mask name v).
Proof.
  unfold loc_setitem. intros [Hn|[c Hc]].
  - destruct (cols df !! name); [reflexivity|].
    destruct (nrows df); [lia|reflexivity].
  - rewrite Hc. reflexivity.
Qed.

Lemma loc_setitem_refused (df : DataFrame) (mask : list bool) (name : string)
    (v : scalar) :
  nrows df = 0%nat -> cols df !! name = None ->
  loc_setitem df mask name v = Raise ValueError.
Proof. unfold loc_setitem. intros -> ->. reflexivity. Qed.

(** Every input column present, the indicator library accepts the
    frame. *)
Lemma set_input_arrays_ok (df : DataFrame) (names : list string) :
  Forall (fun key => exists xs, numeric df key = Ok xs) names ->
  ta.set_input_arrays df names = Ok tt.
Proof.
  intros Hall. unfold ta.set_input_arrays.
  replace (ta.missing_keys df names) with (@nil string); [reflexivity|].
  symmetry. unfold ta.missing_keys.
  induction Hall as [|key names [xs Hkey] _ IH]; [reflexivity|]. simpl.
  unfold numeric, getitem in Hkey.
  destruct (cols df !! key); [exact IH | discriminate Hkey].
Qed.

End FrameLemmas.

(** ** [populate_indicators] *)

Section Indicators.

Context {pandas : PandasVersion} {talib : TALib}.
Context (df : DataFrame) (metadata : gmap string string).
Context (high low close : list float).
Hypothesis Hhigh : numeric df "high" = Ok high.
Hypothesis Hlow : numeric df "low" = Ok low.
Hypothesis Hclose : numeric df "close" = Ok close.

Local Abbreviation N := (nrows df).
Local Abbreviation atr_col := (resize N nan (TA_ATR high low close 14)).
Local Abbreviation long_atr_col := (resize N nan (rolling_mean 100 atr_col)).
Local Abbreviation ema_short_col := (resize N nan (TA_EMA close 50)).
Local Abbreviation ema_long_col := (resize N nan (TA_EMA close 200)).

(** On a frame with numeric [high], [low] and [close] columns the pass
    raises nothing; it keeps the row count, leaves every column it does
    not name as it was, and writes the eight derived columns. *)
Lemma populate_indicators_runs :
  exists df',
    populate_indicators df metadata = Ok df' /\
    nrows df' = N /\
    (forall name, name ∉ derived_columns -> cols df' !! name = cols df !! name) /\
    cols df' !! "price_change" = Some (F <$> resize N nan (pct_change close)) /\
    cols df' !! "atr" = Some (F <$> atr_col) /\
    cols df' !! "long_atr" = Some (F <$> long_atr_col) /\
    cols df' !! "atr_ratio"
    = Some (F <$> resize N nan (series_div atr_col long_atr_col)) /\
    cols df' !! "ema_short" = Some (F <$> ema_short_col) /\
    cols df' !! "ema_long" = Some (F <$> ema_long_col) /\
    cols df' !! "uptrend"
    = Some (resize N (F nan) (B <$> series_gt ema_short_col ema_long_col)) /\
    cols df' !! "swing_low" = Some (F <$> resize N nan (rolling_min 5 low)).
Proof.
  unfold populate_indicators, ta.ATR, ta.EMA.
  repeat (first [ rewrite bind_Ok
                | rewrite set_input_arrays_ok
                    by (repeat (apply Forall_cons; split;
                                [eexists; rewrite ?numeric_setitem_ne by discriminate;
                                 eassumption|]);
                        apply Forall_nil_2)
                | rewrite numeric_setitem_eq
                | rewrite numeric_setitem_ne by discriminate
                | rewrite Hhigh | rewrite Hlow | rewrite Hclose ];
          cbv zeta; rewrite ?nrows_setitem).
  eexists. split; [reflexivity|]. split; [reflexivity|].
  unfold setitem; simpl. split.
  - intros name Hname. unfold derived_columns in Hname.
    repeat (apply not_elem_of_cons in Hname; destruct Hname as [? Hname]).
    rewrite !lookup_insert_ne by congruence. reflexivity.
  - repeat split;
      repeat (first [ rewrite lookup_insert_eq | rewrite lookup_insert_ne by discriminate ]);
      rewrite <- ?(fmap_resize F); reflexivity.
Qed.

End Indicators.

Lemma candle_not_derived (name : string) :
  name ∈ candle_columns -> name ∉ derived_columns.
Proof.
  unfold candle_columns, derived_columns. intros Hin.
  repeat (apply elem_of_cons in Hin; destruct Hin as [->|Hin];
          [rewrite !not_elem_of_cons; repeat split;
           first [discriminate | apply not_elem_of_nil]|]).
  apply elem_of_nil in Hin. destruct Hin.
Qed.

(** C8: on a candle series of length N, [populate_indicators] returns a
    frame of the same length N; the candle columns (date, open, high, low,
    close, volume) -- in fact every column that is not one of the eight
    derived ones -- are returned as they were, row for row; the derived
    columns are added, one cell per row. *)
Theorem populate_indicators_frame {pandas : PandasVersion} {talib : TALib}
    (df : DataFrame)
    (metadata : gmap string string) (high low close : list float) :
  numeric df "high" = Ok high ->
  numeric df "low" = Ok low ->
  numeric df "close" = Ok close ->
  exists df',
    populate_indicators df metadata = Ok df' /\
    len df' = len df /\
    (forall name, name ∈ candle_columns -> cols df' !! name = cols df !! name) /\
    (forall name, name ∉ derived_columns -> cols df' !! name = cols df !! name) /\
    (forall name, name ∈ derived_columns ->
       exists c, cols df' !! name = Some c /\ length c = len df).
Proof.
  intros Hh Hl Hc.
  destruct (populate_indicators_runs df metadata high low close Hh Hl Hc)
    as (df' & Hrun & Hn & Hframe & Hpc & Hatr & Hlong & Hratio & Hes & Hel & Hup & Hsw).
  exists df'. split; [exact Hrun|]. split; [exact Hn|]. split; [|split; [exact Hframe|]].
  - intros name Hin. apply Hframe, candle_not_derived, Hin.
  - unfold derived_columns, len. intros name Hin.
    repeat (apply elem_of_cons in Hin; destruct Hin as [->|Hin];
            [eexists; split; [eassumption|];
             rewrite ?length_fmap; apply length_resize|]).
    apply elem_of_nil in Hin. destruct Hin.
Qed.

(** C7: on every candle series [populate_indicators] raises nothing, and
    each [atr_ratio] cell is the binary64 quotient of the [atr] and
    [long_atr] cells of its row.  Where [long_atr] is zero that quotient is
    no finite number (it is NaN or an infinity): the division yields an
    undefined value instead of an error. *)
Theorem atr_ratio_never_raises {pandas : PandasVersion} {talib : TALib}
    (df : DataFrame)
    (metadata : gmap string string) (high low close : list float) :
  numeric df "high" = Ok high ->
  numeric df "low" = Ok low ->
  numeric df "close" = Ok close ->
  exists df',
    populate_indicators df metadata = Ok df' /\
    forall (i : nat) (atr long_atr : float),
      cell df' "atr" i = Some (F atr) ->
      cell df' "long_atr" i = Some (F long_atr) ->
      cell df' "atr_ratio" i = Some (F (atr / long_atr)) /\
      ((long_atr =? 0)%float = true -> is_finite (atr / long_atr) = false).
Proof.
  intros Hh Hl Hc.
  destruct (populate_indicators_runs df metadata high low close Hh Hl Hc)
    as (df' & Hrun & Hn & Hframe & Hpc & Hatr & Hlong & Hratio & _).
  exists df'. split; [exact Hrun|].
  intros i a la. unfold cell. rewrite Hatr, Hlong, Hratio. simpl.
  intros Ha Hla.
  apply list_lookup_fmap_Some in Ha. destruct Ha as (a' & [= <-] & Ha).
  apply list_lookup_fmap_Some in Hla. destruct Hla as (la' & [= <-] & Hla).
  split; [|apply FloatFacts.div_zero_not_finite].
  apply list_lookup_fmap_Some_2.
  rewrite resize_all_alt.
  - unfold series_div. rewrite lookup_zip_with, Ha, Hla. reflexivity.
  - unfold series_div. rewrite length_zip_with, !length_resize. lia.
Qed.

(** ** [populate_sell_trend] and [populate_buy_trend] *)

Lemma flagged_loc_assign (df : DataFrame) (mask : list bool) (name : string)
    (v : scalar) (i : nat) :
  flagged (loc_assign df mask name v) name i
  = if (i <? nrows df)%nat
    then (if default false (mask !! i)
          then match to_float v with Ok x => (x =? 1)%float | Raise _ => false end
          else match cell df name i with Some _ => flagged df name i | None => false end)
    else false.
Proof.
  unfold flagged at 1. destruct (Nat.ltb_spec i (nrows df)) as [Hi|Hi].
  - rewrite cell_loc_assign by exact Hi.
    destruct (default false (mask !! i)); [reflexivity|].
    unfold flagged. destruct (cell df name i); reflexivity.
  - rewrite cell_loc_assign_out by exact Hi. reflexivity.
Qed.

(** C1 (amended): [populate_sell_trend] raises no exit signal.  On an
    input frame that has candles (or has a [sell] column already) it
    writes [0] into the [sell] column at every candle whose close is
    greater than 0, so the exit signal is false there; a row is flagged
    after the pass only if it already was before it. *)
Theorem populate_sell_trend_no_exit (df : DataFrame)
    (metadata : gmap string string) (close : list float) :
  numeric df "close" = Ok close ->
  (0 < len df)%nat \/ is_Some (cols df !! "sell") ->
  exists df',
    populate_sell_trend df metadata = Ok df' /\
    len df' = len df /\
    (forall (i : nat) (c : float),
       (i < len df)%nat -> close !! i = Some c -> gt c 0 = true ->
       cell df' "sell" i = Some (F 0) /\ flagged df' "sell" i = false) /\
    (forall i : nat, flagged df' "sell" i = true -> flagged df "sell" i = true).
Proof.
  intros Hc Hrows. unfold populate_sell_trend.
  rewrite Hc, bind_Ok, loc_setitem_ok by exact Hrows.
  eexists. split; [reflexivity|]. split; [reflexivity|]. split.
  - intros i c Hi Hci Hpos.
    assert (Hm : default false (series_gt_scalar close 0 !! i) = true).
    { unfold series_gt_scalar. rewrite list_lookup_fmap, Hci. exact Hpos. }
    split.
    + rewrite cell_loc_assign by exact Hi. rewrite Hm. reflexivity.
    + rewrite flagged_loc_assign. unfold len in Hi.
      apply Nat.ltb_lt in Hi. rewrite Hi, Hm. reflexivity.
  - intros i. rewrite flagged_loc_assign.
    destruct (i <? nrows df)%nat; [|discriminate].
    destruct (default false (series_gt_scalar close 0 !! i)); [discriminate|].
    destruct (cell df "sell" i); [tauto|discriminate].
Qed.

Lemma length_ffill_from (prev : float) (xs : list float) :
  length (ffill_from prev xs) = length xs.
Proof.
  revert prev. induction xs as [|x xs IH]; intros prev; simpl; [reflexivity|].
  destruct (is_nan x); simpl; rewrite IH; reflexivity.
Qed.

(** Forward filling changes nothing in a series without NaN. *)
Lemma ffill_from_id (prev : float) (xs : list float) :
  Forall (fun x => is_nan x = false) xs -> ffill_from prev xs = xs.
Proof.
  intros Hxs. revert prev. induction Hxs as [|x xs Hx _ IH]; intros prev; simpl.
  - reflexivity.
  - rewrite Hx, IH. reflexivity.
Qed.

(** Forward filling keeps every value that is a number. *)
Lemma ffill_from_number (prev : float) (xs : list float) (i : nat) (x : float) :
  xs !! i = Some x -> is_nan x = false -> ffill_from prev xs !! i = Some x.
Proof.
  revert prev i. induction xs as [|y xs IH]; intros prev i Hx Hnan; [discriminate Hx|].
  destruct i as [|i]; simpl in *.
  - injection Hx as ->. rewrite Hnan. reflexivity.
  - destruct (is_nan y); simpl; apply IH; assumption.
Qed.

(** The series [pct_change] divides: the closes, forward-filled where the
    version pads. *)
Lemma pct_change_lookup {pandas : PandasVersion} (xs : list float) (i : nat) :
  pct_change xs !! i
  = (cur ← (if pct_change_pads then ffill xs else xs) !! i;
     prev ← (nan :: (if pct_change_pads then ffill xs else xs)) !! i;
     Some (cur / prev - 1)%float).
Proof.
  unfold pct_change, shift. rewrite lookup_zip_with.
  destruct ((if pct_change_pads then ffill xs else xs) !! i) as [cur|] eqn:E;
    [|reflexivity]. simpl.
  rewrite lookup_take_lt by (apply lookup_lt_Some in E; exact E). reflexivity.
Qed.

Lemma length_pct_change {pandas : PandasVersion} (xs : list float) :
  length (pct_change xs) = length xs.
Proof.
  unfold pct_change, shift, ffill.
  rewrite length_zip_with, length_take. simpl.
  destruct pct_change_pads; rewrite ?length_ffill_from; lia.
Qed.

(** Where a row and the row before it hold numbers, the change is their
    quotient less one, whether the version pads or not. *)
Lemma pct_change_numbers {pandas : PandasVersion} (xs : list float) (j : nat)
    (prev cur : float) :
  xs !! j = Some prev -> xs !! S j = Some cur ->
  is_nan prev = false -> is_nan cur = false ->
  pct_change xs !! S j = Some (cur / prev - 1)%float.
Proof.
  intros Hprev Hcur Nprev Ncur. rewrite pct_change_lookup. simpl.
  destruct pct_change_pads.
  - unfold ffill. rewrite (ffill_from_number _ _ _ _ Hcur Ncur). simpl.
    rewrite (ffill_from_number _ _ _ _ Hprev Nprev). reflexivity.
  - rewrite Hcur. simpl. rewrite Hprev. reflexivity.
Qed.

(** The change against an undefined predecessor is undefined, and an
    undefined change is below every threshold. *)
Lemma ge_change_from_nan (cur : float) : ge (cur / nan - 1)%float 0.01 = false.
Proof.
  unfold ge. rewrite FloatAxioms.leb_spec, FloatAxioms.sub_spec, FloatAxioms.div_spec.
  change (Prim2SF nan) with S754_nan.
  destruct (Prim2SF cur) as [[]|[]| |[] m e]; reflexivity.
Qed.

(** C6 (amended): after [populate_indicators] and [populate_buy_trend] on
    a candle series that is not empty, the entry signal is false at row 0,
    and at every row [i >= 1] whose closes [close[i-1]] and [close[i]] are
    numbers it is true if and only if [close[i] / close[i-1] - 1 >= 0.01]
    in binary64 arithmetic -- the price change as [pct_change] computes
    it. *)
Theorem entry_signal_iff {pandas : PandasVersion} {talib : TALib} (df : DataFrame)
    (metadata : gmap string string) (high low close : list float) :
  numeric df "high" = Ok high ->
  numeric df "low" = Ok low ->
  numeric df "close" = Ok close ->
  length close = len df ->
  cols df !! "buy" = None ->
  (0 < len df)%nat ->
  exists df1 df2,
    populate_indicators df metadata = Ok df1 /\
    populate_buy_trend df1 metadata = Ok df2 /\
    flagged df2 "buy" 0 = false /\
    forall (j : nat) (prev cur : float),
      close !! j = Some prev ->
      close !! S j = Some cur ->
      is_nan prev = false ->
      is_nan cur = false ->
      flagged df2 "buy" (S j) = ge (cur / prev - 1)%float 0.01.
Proof.
  intros Hh Hl Hc Hlen Hbuy Hrows. unfold len in Hlen, Hrows.
  destruct (populate_indicators_runs df metadata high low close Hh Hl Hc)
    as (df1 & Hrun & Hn & Hframe & Hpc & _).
  assert (Hnum : numeric df1 "price_change" = Ok (pct_change close)).
  { unfold numeric, getitem. rewrite Hpc, bind_Ok, to_floats_F.
    rewrite resize_all_alt; [reflexivity|]. rewrite length_pct_change. lia. }
  assert (Hnone : forall i, cell df1 "buy" i = None).
  { intros i. unfold cell. rewrite Hframe, Hbuy; [reflexivity|].
    unfold derived_columns. rewrite !not_elem_of_cons.
    repeat split; first [discriminate | apply not_elem_of_nil]. }
  assert (Hflag : forall i,
            (i < nrows df)%nat ->
            flagged (loc_assign df1 (series_ge_scalar (pct_change close) 0.01) "buy" (F 1))
              "buy" i
            = default false ((fun x => ge x 0.01) <$> pct_change close !! i)).
  { intros i Hi. rewrite flagged_loc_assign, Hnone, Hn.
    apply Nat.ltb_lt in Hi. rewrite Hi.
    unfold series_ge_scalar. rewrite list_lookup_fmap.
    destruct (default false _); reflexivity. }
  exists df1. eexists. split; [exact Hrun|].
  unfold populate_buy_trend. rewrite Hnum, bind_Ok.
  rewrite loc_setitem_ok by (left; lia).
  split; [reflexivity|]. split.
  - rewrite Hflag by exact Hrows. rewrite pct_change_lookup.
    destruct ((if pct_change_pads then ffill close else close) !! 0%nat) as [cur|];
      simpl; [|reflexivity].
    apply ge_change_from_nan.
  - intros j prev cur Hprev Hcur Nprev Ncur.
    rewrite Hflag by (apply lookup_lt_Some in Hcur; lia).
    rewrite (pct_change_numbers close j prev cur Hprev Hcur Nprev Ncur). reflexivity.
Qed.

(** *** Runs of the frame passes on concrete candle series *)

Section FrameRuns.

Import Samples.

(** C1, as stated, fails: on a candle with close 100 the pass writes 0,
    and the exit signal is false. *)
Lemma exit_signal_not_raised :
  numeric (frame_of_candles one_candle) "close" = Ok [100%float] /\
  gt 100 0 = true /\
  (df' ← populate_sell_trend (frame_of_candles one_candle) ∅;
   Ok (cell df' "sell" 0, flagged df' "sell" 0))
  = Ok (Some (F 0), false).
Proof. repeat split; vm_compute; reflexivity. Qed.

Lemma populate_sell_trend_no_exit_witness :
  exists df',
    populate_sell_trend (frame_of_candles one_candle) ∅ = Ok df' /\
    len df' = len (frame_of_candles one_candle) /\
    (forall (i : nat) (c : float),
       (i < len (frame_of_candles one_candle))%nat ->
       [100%float] !! i = Some c -> gt c 0 = true ->
       cell df' "sell" i = Some (F 0) /\ flagged df' "sell" i = false) /\
    (forall i : nat,
       flagged df' "sell" i = true ->
       flagged (frame_of_candles one_candle) "sell" i = true).
Proof.
  apply (populate_sell_trend_no_exit (frame_of_candles one_candle) ∅ [100%float]).
  - vm_compute. reflexivity.
  - left. vm_compute. lia.
Defined.

(** C6, as stated, fails: from 13 to 13.129999999999999 the close rises
    by less than 1% -- the quotient (close[1]-close[0])/close[0] is below
    0.01 both exactly and when evaluated in binary64 -- yet [pct_change]
    computes 13.129999999999999/13 - 1 = 0.010000000000000009 and the
    entry signal is set, under either pandas version. *)
Lemma entry_signal_on_smaller_rise :
  c_close <$> two_candles = [13; 13.129999999999999]%float /\
  exact_value 13 = Some (13 # 1) /\
  exact_value 13.129999999999999 = Some (3695766444210913 # 281474976710656) /\
  (((3695766444210913 # 281474976710656) - (13 # 1)) / (13 # 1) < 1 # 100)%Q /\
  ge ((13.129999999999999 - 13) / 13)%float 0.01 = false /\
  (df1 ← populate_indicators (pandas := pandas_2) (talib := reference_talib)
           (frame_of_candles two_candles) ∅;
   df2 ← populate_buy_trend df1 ∅;
   Ok (cell df1 "price_change" 1, flagged df2 "buy" 1))
  = Ok (Some (F 0.010000000000000009), true) /\
  (df1 ← populate_indicators (pandas := pandas_3) (talib := reference_talib)
           (frame_of_candles two_candles) ∅;
   df2 ← populate_buy_trend df1 ∅;
   Ok (cell df1 "price_change" 1, flagged df2 "buy" 1))
  = Ok (Some (F 0.010000000000000009), true).
Proof. repeat split; vm_compute; reflexivity. Qed.

Lemma entry_signal_iff_witness :
  exists df1 df2,
    populate_indicators (pandas := pandas_2) (talib := reference_talib)
      (frame_of_candles two_candles) ∅ = Ok df1 /\
    populate_buy_trend df1 ∅ = Ok df2 /\
    flagged df2 "buy" 0 = false /\
    forall (j : nat) (prev cur : float),
      (c_close <$> two_candles) !! j = Some prev ->
      (c_close <$> two_candles) !! S j = Some cur ->
      is_nan prev = false ->
      is_nan cur = false ->
      flagged df2 "buy" (S j) = ge (cur / prev - 1)%float 0.01.
Proof.
  apply (entry_signal_iff (pandas := pandas_2) (talib := reference_talib)
           (frame_of_candles two_candles) ∅
           (c_high <$> two_candles) (c_low <$> two_candles) (c_close <$> two_candles));
    first [vm_compute; reflexivity | vm_compute; lia].
Defined.

Lemma populate_indicators_frame_witness :
  exists df',
    populate_indicators (pandas := pandas_2) (talib := reference_talib) (frame_of_candles flat_candles) ∅ = Ok df' /\
    len df' = len (frame_of_candles flat_candles) /\
    (forall name, name ∈ candle_columns ->
       cols df' !! name = cols (frame_of_candles flat_candles) !! name) /\
    (forall name, name ∉ derived_columns ->
       cols df' !! name = cols (frame_of_candles flat_candles) !! name) /\
    (forall name, name ∈ derived_columns ->
       exists c, cols df' !! name = Some c /\ length c = len (frame_of_candles flat_candles)).
Proof.
  apply (populate_indicators_frame (talib := reference_talib) (frame_of_candles flat_candles) ∅
           (c_high <$> flat_candles) (c_low <$> flat_candles) (c_close <$> flat_candles));
    vm_compute; reflexivity.
Defined.

Lemma atr_ratio_never_raises_witness :
  exists df',
    populate_indicators (pandas := pandas_2) (talib := reference_talib) (frame_of_candles flat_candles) ∅ = Ok df' /\
    forall (i : nat) (atr long_atr : float),
      cell df' "atr" i = Some (F atr) ->
      cell df' "long_atr" i = Some (F long_atr) ->
      cell df' "atr_ratio" i = Some (F (atr / long_atr)) /\
      ((long_atr =? 0)%float = true -> is_finite (atr / long_atr) = false).
Proof.
  apply (atr_ratio_never_raises (talib := reference_talib) (frame_of_candles flat_candles) ∅
           (c_high <$> flat_candles) (c_low <$> flat_candles) (c_close <$> flat_candles));
    vm_compute; reflexivity.
Defined.

(** In the flat market the average true range and its long mean are zero
    in the last row, the ratio is 0/0 = NaN, and the stop-loss computed
    from that row is NaN as well: NaN is not replaced by the floor. *)
Example flat_market :
  (df ← populate_indicators (pandas := pandas_2) (talib := reference_talib) (frame_of_candles flat_candles) ∅;
   r ← custom_stoploss (serving df) "BTC/USDT" trade_100 (minutes 10) 100 0 false;
   Ok (last_cell df "atr", last_cell df "long_atr", last_cell df "atr_ratio", r))
  = Ok (Some (F 0), Some (F 0), Some (F nan), PyFloat nan).
Proof. vm_compute. reflexivity. Qed.

End FrameRuns.

(** * Further properties of the strategy *)

(** ** NaN in binary64 arithmetic *)

Module NanFacts.

Lemma is_nan_true (x : float) : is_nan x = true <-> Prim2SF x = S754_nan.
Proof.
  split.
  - intros H. destruct (Prim2SF x) eqn:E; try reflexivity;
      assert (N : is_nan x = false)
        by (apply FloatFacts.is_nan_false; rewrite E; discriminate);
      congruence.
  - intros E. destruct (is_nan x) eqn:N; [reflexivity|].
    apply FloatFacts.is_nan_false in N. contradiction.
Qed.

(** There is one NaN. *)
Lemma is_nan_eq (x : float) : is_nan x = true -> x = nan.
Proof.
  intros H. apply is_nan_true in H.
  rewrite <- (SF2Prim_Prim2SF x), H. reflexivity.
Qed.

Lemma mul_nan_l (x y : float) : is_nan x = true -> is_nan (x * y) = true.
Proof.
  rewrite !is_nan_true, mul_spec. intros ->. reflexivity.
Qed.

Lemma mul_nan_r (x y : float) : is_nan y = true -> is_nan (x * y) = true.
Proof.
  rewrite !is_nan_true, mul_spec. intros ->.
  destruct (Prim2SF x); reflexivity.
Qed.

Lemma sub_nan_l (x y : float) : is_nan x = true -> is_nan (x - y) = true.
Proof.
  rewrite !is_nan_true, sub_spec. intros ->. reflexivity.
Qed.

Lemma sub_nan_r (x y : float) : is_nan y = true -> is_nan (x - y) = true.
Proof.
  rewrite !is_nan_true, sub_spec. intros ->.
  destruct (Prim2SF x); reflexivity.
Qed.

Lemma div_nan_l (x y : float) : is_nan x = true -> is_nan (x / y) = true.
Proof.
  rewrite !is_nan_true, div_spec. intros ->. reflexivity.
Qed.

Lemma div_nan_r (x y : float) : is_nan y = true -> is_nan (x / y) = true.
Proof.
  rewrite !is_nan_true, div_spec. intros ->.
  destruct (Prim2SF x); reflexivity.
Qed.

(** No comparison with NaN holds. *)
Lemma gt_nan_l (x y : float) : is_nan x = true -> gt x y = false.
Proof.
  intros H. destruct (gt x y) eqn:E; [|reflexivity].
  apply FloatFacts.gt_is_nan in E. destruct E as [E _]. congruence.
Qed.

Lemma gt_nan_r (x y : float) : is_nan y = true -> gt x y = false.
Proof.
  intros H. destruct (gt x y) eqn:E; [|reflexivity].
  apply FloatFacts.gt_is_nan in E. destruct E as [_ E]. congruence.
Qed.

End NanFacts.

(** ** [custom_stoploss]: missing and undefined indicators *)

Lemma multiplier_nan (uptrend : bool) (atr_ratio current_profit minutes : float) :
  is_nan atr_ratio = true ->
  is_nan (Spec.multiplier uptrend atr_ratio current_profit minutes) = true.
Proof.
  intros H.
  unfold Spec.multiplier, Spec.duration_tightening, Spec.profit_tightening,
    Spec.base_multiplier.
  assert (Hb : is_nan (if uptrend then 1.5 * atr_ratio else 1.0 * atr_ratio)%float = true)
    by (destruct uptrend; apply NanFacts.mul_nan_r, H).
  destruct (gt minutes 120), (gt current_profit 0.05), (gt current_profit 0.02);
    repeat apply NanFacts.mul_nan_l; exact Hb.
Qed.

Section StoplossExtras.

Context (dp : DataProvider) (pair : string) (trade : Trade).
Context (current_time : datetime) (current_rate current_profit : float).
Context (after_fill : bool).

Local Abbreviation run :=
  (custom_stoploss dp pair trade current_time current_rate current_profit after_fill).
Local Abbreviation body row :=
  (stoploss_frame row trade current_time current_rate current_profit).
Local Abbreviation history := (analyzed dp pair).

(** X1: with at least 200 candles, a last row that lacks one of the four
    indicator cells makes [custom_stoploss] raise [KeyError] for the first
    cell missing, in the order the source reads them: [atr], [atr_ratio],
    [uptrend], [swing_low]. *)
Theorem custom_stoploss_missing_column :
  (startup_candle_count <= len history)%nat ->
  (last_cell history "atr" = None -> run = Raise (KeyError "atr")) /\
  (is_Some (last_cell history "atr") ->
   last_cell history "atr_ratio" = None -> run = Raise (KeyError "atr_ratio")) /\
  (is_Some (last_cell history "atr") ->
   is_Some (last_cell history "atr_ratio") ->
   last_cell history "uptrend" = None -> run = Raise (KeyError "uptrend")) /\
  (is_Some (last_cell history "atr") ->
   is_Some (last_cell history "atr_ratio") ->
   is_Some (last_cell history "uptrend") ->
   last_cell history "swing_low" = None -> run = Raise (KeyError "swing_low")).
Proof.
  intros Hlen.
  destruct (custom_stoploss_long dp pair trade current_time current_rate
              current_profit after_fill Hlen) as (row & _ & Hcells & ->).
  unfold stoploss_frame, row_getitem. rewrite !Hcells.
  repeat split.
  - intros ->. reflexivity.
  - intros [a ->] ->. reflexivity.
  - intros [a ->] [r ->] ->. reflexivity.
  - intros [a ->] [r ->] [u ->] ->. reflexivity.
Qed.

(** X2: with at least 200 candles and an annotated last row, a NaN [atr]
    or a NaN [atr_ratio] makes the result NaN: the floor -0.15 does not
    replace an undefined atr-based fraction, because the builtin [max]
    keeps a NaN first argument. *)
Theorem custom_stoploss_nan_indicator
    (atr atr_ratio : float) (uptrend : scalar) (swing_low : float) :
  (startup_candle_count <= len history)%nat ->
  annotated_last history atr atr_ratio uptrend swing_low ->
  is_nan atr = true \/ is_nan atr_ratio = true ->
  run = Ok (PyFloat nan).
Proof.
  intros Hlen Hann Hnan.
  destruct (custom_stoploss_runs dp pair trade current_time current_rate
              current_profit after_fill _ _ _ _ Hlen Hann)
    as (row & l & Hrow & Ha & Hr & Hu & Hs & Hl & Hrun).
  destruct (stoploss_frame_runs trade current_time current_rate current_profit
              row _ _ _ _ atr atr_ratio swing_low Ha Hr Hu Hs eq_refl eq_refl eq_refl)
    as (l' & Hl' & _ & Hm & Hp & Hpct & _ & _ & Hmax).
  rewrite Hl in Hl'. injection Hl' as <-.
  assert (Hprod : is_nan (atr * atr_multiplier l)%float = true).
  { destruct Hnan as [Hatr|Hratio].
    - apply NanFacts.mul_nan_l, Hatr.
    - apply NanFacts.mul_nan_r. rewrite Hm. apply multiplier_nan, Hratio. }
  assert (Hfrac : is_nan (atr_stoploss_pct l) = true).
  { rewrite Hpct, Hp. apply NanFacts.div_nan_l, NanFacts.sub_nan_l, NanFacts.sub_nan_r.
    exact Hprod. }
  rewrite Hrun, Hmax, (max3_nan_first _ _ _ Hfrac), (NanFacts.is_nan_eq _ Hfrac).
  reflexivity.
Qed.

(** X3: a NaN [swing_low], in contrast, is skipped: the result is the
    greater of the atr-based fraction and the floor -0.15. *)
Theorem custom_stoploss_nan_swing
    (atr atr_ratio : float) (uptrend : scalar) (swing_low : float) :
  (startup_candle_count <= len history)%nat ->
  annotated_last history atr atr_ratio uptrend swing_low ->
  is_nan swing_low = true ->
  exists last_candle l,
    iloc_last history = Ok last_candle /\
    body last_candle = Ok l /\
    run = Ok (PyFloat (stoploss_pct l)) /\
    stoploss_pct l = Py.max (atr_stoploss_pct l) [stoploss].
Proof.
  intros Hlen Hann Hnan.
  destruct (custom_stoploss_runs dp pair trade current_time current_rate
              current_profit after_fill _ _ _ _ Hlen Hann)
    as (row & l & Hrow & Ha & Hr & Hu & Hs & Hl & Hrun).
  destruct (stoploss_frame_runs trade current_time current_rate current_profit
              row _ _ _ _ atr atr_ratio swing_low Ha Hr Hu Hs eq_refl eq_refl eq_refl)
    as (l' & Hl' & _ & _ & _ & _ & Hsp & Hspct & Hmax).
  rewrite Hl in Hl'. injection Hl' as <-.
  exists row, l. repeat (split; [assumption|]).
  assert (Hfrac : is_nan (swing_stoploss_pct l) = true).
  { rewrite Hspct, Hsp.
    apply NanFacts.div_nan_l, NanFacts.sub_nan_l, NanFacts.mul_nan_l, Hnan. }
  rewrite Hmax. unfold Py.max; simpl.
  rewrite (NanFacts.gt_nan_l _ _ Hfrac). reflexivity.
Qed.

End StoplossExtras.

Section StoplossExtraRuns.

Import Samples MoreSamples.

Lemma custom_stoploss_missing_column_witness :
  custom_stoploss (serving frame_without_uptrend) "BTC/USDT" trade_100 (minutes 10)
    105 0.03 false
  = Raise (KeyError "uptrend").
Proof.
  apply (custom_stoploss_missing_column (serving frame_without_uptrend) "BTC/USDT"
           trade_100 (minutes 10) 105 0.03 false).
  - vm_compute. lia.
  - vm_compute. eexists. reflexivity.
  - vm_compute. eexists. reflexivity.
  - vm_compute. reflexivity.
Defined.

Lemma custom_stoploss_nan_indicator_witness :
  custom_stoploss (serving nan_ratio_frame) "BTC/USDT" trade_100 (minutes 10) 100 0 false
  = Ok (PyFloat nan).
Proof.
  apply (custom_stoploss_nan_indicator (serving nan_ratio_frame) "BTC/USDT" trade_100
           (minutes 10) 100 0 false 0 nan (B false) 100).
  - vm_compute. lia.
  - repeat split; vm_compute; reflexivity.
  - right. vm_compute. reflexivity.
Defined.

Lemma custom_stoploss_nan_swing_witness :
  exists last_candle l,
    iloc_last (analyzed (serving nan_swing_frame) "BTC/USDT") = Ok last_candle /\
    stoploss_frame last_candle trade_100 (minutes 10) 105 0.03 = Ok l /\
    custom_stoploss (serving nan_swing_frame) "BTC/USDT" trade_100 (minutes 10)
      105 0.03 false
    = Ok (PyFloat (stoploss_pct l)) /\
    stoploss_pct l = Py.max (atr_stoploss_pct l) [stoploss].
Proof.
  apply (custom_stoploss_nan_swing (serving nan_swing_frame) "BTC/USDT" trade_100
           (minutes 10) 105 0.03 false 1.0 1.2 (B true) nan).
  - vm_compute. lia.
  - repeat split; vm_compute; reflexivity.
  - vm_compute. reflexivity.
Defined.

End StoplossExtraRuns.

(** ** Candle frames *)

Section CandleFrames.

Context (cs : list Candle).

Lemma to_floats_candles (f : Candle -> float) :
  to_floats ((fun c => F (f c)) <$> cs) = Ok (f <$> cs).
Proof.
  induction cs as [|c cs' IH]; [reflexivity|].
  change (to_floats ((fun c => F (f c)) <$> c :: cs'))
    with (to_floats ((fun c => F (f c)) <$> cs') ≫= fun ys => Ok (f c :: ys)).
  rewrite IH. reflexivity.
Qed.

Lemma numeric_candles :
  numeric (frame_of_candles cs) "high" = Ok (c_high <$> cs) /\
  numeric (frame_of_candles cs) "low" = Ok (c_low <$> cs) /\
  numeric (frame_of_candles cs) "close" = Ok (c_close <$> cs).
Proof.
  repeat split; unfold numeric, getitem, frame_of_candles; simpl;
    repeat (first [ rewrite lookup_insert_eq | rewrite lookup_insert_ne by discriminate ]);
    rewrite bind_Ok; apply to_floats_candles.
Qed.

Lemma candles_no_signal_columns (name : string) :
  name ∉ candle_columns -> cols (frame_of_candles cs) !! name = None.
Proof.
  unfold candle_columns. intros Hname.
  repeat (apply not_elem_of_cons in Hname; destruct Hname as [? Hname]).
  unfold frame_of_candles; simpl.
  rewrite !lookup_insert_ne by congruence. apply lookup_empty.
Qed.

End CandleFrames.

(** ** [populate_indicators]: errors, warm-up and derived columns *)

Lemma missing_keys_setitem (df : DataFrame) (name : string) (c : list scalar)
    (names : list string) :
  name ∉ names ->
  ta.missing_keys (setitem df name c) names = ta.missing_keys df names.
Proof.
  unfold ta.missing_keys, setitem; simpl.
  induction names as [|key names IH]; intros Hname; [reflexivity|].
  apply not_elem_of_cons in Hname. destruct Hname as [Hne Hname]. simpl.
  rewrite lookup_insert_ne by congruence. rewrite IH by exact Hname. reflexivity.
Qed.

Section IndicatorExtras.

Context {pandas : PandasVersion} {talib : TALib}.
Context (df : DataFrame) (metadata : gmap string string).

Lemma price_change_not_input :
  "price_change"%string ∉ ["high"; "low"; "close"]%string.
Proof. rewrite !not_elem_of_cons. repeat split; [discriminate ..|apply not_elem_of_nil]. Qed.

(** The pass stops at the first input it cannot read: the [close]
    column, then the columns the indicator library asks for, then their
    conversion to numbers. *)
Lemma populate_indicators_raises :
  (forall e, numeric df "close" = Raise e ->
     populate_indicators df metadata = Raise e) /\
  (forall close key keys, numeric df "close" = Ok close ->
     ta.missing_keys df ["high"; "low"; "close"]%string = key :: keys ->
     populate_indicators df metadata = Raise (Exception (key :: keys))) /\
  (forall close e, numeric df "close" = Ok close ->
     ta.missing_keys df ["high"; "low"; "close"]%string = [] ->
     numeric df "high" = Raise e ->
     populate_indicators df metadata = Raise e) /\
  (forall close high e, numeric df "close" = Ok close ->
     ta.missing_keys df ["high"; "low"; "close"]%string = [] ->
     numeric df "high" = Ok high ->
     numeric df "low" = Raise e ->
     populate_indicators df metadata = Raise e).
Proof.
  unfold populate_indicators, ta.ATR, ta.set_input_arrays. repeat split.
  - intros e ->. reflexivity.
  - intros close key keys -> Hmiss. rewrite bind_Ok. cbv zeta.
    rewrite (missing_keys_setitem _ _ _ _ price_change_not_input), Hmiss. reflexivity.
  - intros close e -> Hmiss Hh. rewrite bind_Ok. cbv zeta.
    rewrite (missing_keys_setitem _ _ _ _ price_change_not_input), Hmiss, bind_Ok.
    rewrite !numeric_setitem_ne by discriminate. rewrite Hh. reflexivity.
  - intros close high e -> Hmiss Hh Hl. rewrite bind_Ok. cbv zeta.
    rewrite (missing_keys_setitem _ _ _ _ price_change_not_input), Hmiss, bind_Ok.
    rewrite !numeric_setitem_ne by discriminate. rewrite Hh, bind_Ok, Hl. reflexivity.
Qed.

(** A run that succeeded read its three inputs. *)
Lemma populate_indicators_inv (df' : DataFrame) :
  populate_indicators df metadata = Ok df' ->
  exists high low close,
    numeric df "high" = Ok high /\
    numeric df "low" = Ok low /\
    numeric df "close" = Ok close.
Proof.
  intros Hrun. destruct populate_indicators_raises as (Rc & Rm & Rh & Rl).
  destruct (numeric df "close") as [close|e] eqn:Hc;
    [|rewrite (Rc e eq_refl) in Hrun; discriminate].
  destruct (ta.missing_keys df ["high"; "low"; "close"]%string) as [|key keys] eqn:Hm;
    [|rewrite (Rm close key keys eq_refl eq_refl) in Hrun; discriminate].
  destruct (numeric df "high") as [high|e] eqn:Hh;
    [|rewrite (Rh close e eq_refl eq_refl eq_refl) in Hrun; discriminate].
  destruct (numeric df "low") as [low|e] eqn:Hl;
    [|rewrite (Rl close high e eq_refl eq_refl eq_refl eq_refl) in Hrun; discriminate].
  exists high, low, close. repeat split; reflexivity.
Qed.

(** X4: [populate_indicators] on a frame that lacks an input column
    raises.  A missing [close] is a [KeyError] for [close], raised by the
    frame itself.  With [close] present, a missing [high] or [low] is
    reported by the indicator library as one [Exception] that names
    every column missing: [high], [low], or both. *)
Theorem populate_indicators_missing_column :
  (cols df !! "close" = None ->
     populate_indicators df metadata = Raise (KeyError "close")) /\
  (forall close, numeric df "close" = Ok close ->
     cols df !! "high" = None -> is_Some (cols df !! "low") ->
     populate_indicators df metadata = Raise (Exception ["high"%string])) /\
  (forall close, numeric df "close" = Ok close ->
     is_Some (cols df !! "high") -> cols df !! "low" = None ->
     populate_indicators df metadata = Raise (Exception ["low"%string])) /\
  (forall close, numeric df "close" = Ok close ->
     cols df !! "high" = None -> cols df !! "low" = None ->
     populate_indicators df metadata = Raise (Exception ["high"; "low"]%string)).
Proof.
  destruct populate_indicators_raises as (Rc & Rm & _ & _).
  assert (Hclose : forall close, numeric df "close" = Ok close ->
            exists c, cols df !! "close" = Some c).
  { intros close Hc. unfold numeric, getitem in Hc.
    destruct (cols df !! "close") as [c|]; [eauto | discriminate Hc]. }
  repeat split.
  - intros H. apply Rc. unfold numeric, getitem. rewrite H. reflexivity.
  - intros close Hc Hh [l Hl]. destruct (Hclose close Hc) as [c Hcc].
    apply (Rm close _ _ Hc). unfold ta.missing_keys; simpl.
    rewrite Hh, Hl, Hcc. reflexivity.
  - intros close Hc [h Hh] Hl. destruct (Hclose close Hc) as [c Hcc].
    apply (Rm close _ _ Hc). unfold ta.missing_keys; simpl.
    rewrite Hh, Hl, Hcc. reflexivity.
  - intros close Hc Hh Hl. destruct (Hclose close Hc) as [c Hcc].
    apply (Rm close _ _ Hc). unfold ta.missing_keys; simpl.
    rewrite Hh, Hl, Hcc. reflexivity.
Qed.

End IndicatorExtras.

(** *** Rolling windows and the builtin [min] *)

Lemma rolling_lookup {pandas : PandasVersion} (w : nat)
    (agg : nat -> list float -> float) (xs : list float) (i : nat) :
  rolling w agg xs !! i
  = (fun _ : float =>
       match window w i xs with
       | Some win => if void win then nan else agg i win
       | None => nan
       end) <$> xs !! i.
Proof. unfold rolling. apply list_lookup_imap. Qed.

(** A window of finite numbers counts under every version; a window that
    holds a NaN counts under none. *)
Lemma void_finite {pandas : PandasVersion} (win : list float) :
  forallb is_finite win = true ->
  void win = false /\ Forall (fun x => is_nan x = false) win.
Proof.
  unfold void. induction win as [|x win IH]; simpl.
  - intros _. rewrite andb_false_r. split; [reflexivity | constructor].
  - intros H. apply andb_true_iff in H. destruct H as [Hx Hwin].
    destruct (IH Hwin) as [Hvoid Hnan].
    unfold is_finite in Hx. apply negb_true_iff, orb_false_iff in Hx.
    destruct Hx as [Hxn Hxi]. rewrite Hxn, Hxi. simpl.
    split; [exact Hvoid | constructor; assumption].
Qed.

Lemma void_nan {pandas : PandasVersion} (win : list float) :
  existsb is_nan win = true -> void win = true.
Proof. unfold void. intros ->. reflexivity. Qed.

Lemma existsb_is_nan_false (win : list float) :
  existsb is_nan win = false -> Forall (fun x => is_nan x = false) win.
Proof.
  induction win as [|x win IH]; simpl; [constructor|].
  intros H. apply orb_false_iff in H. destruct H as [Hx Hwin].
  constructor; [exact Hx | apply IH, Hwin].
Qed.

(** On numbers, [min] returns one of its arguments, and one that is at
    most each of them. *)
Lemma py_min_least (x : float) (rest : list float) :
  Forall (fun y => is_nan y = false) (x :: rest) ->
  Py.min x rest ∈ x :: rest /\
  Forall (fun y => le (Py.min x rest) y = true) (x :: rest).
Proof.
  unfold Py.min. revert x. induction rest as [|y rest IH]; intros x Hnan; simpl.
  - apply Forall_cons in Hnan. destruct Hnan as [Hx _]. split.
    + apply list_elem_of_here.
    + constructor; [apply FloatFacts.le_refl, Hx | constructor].
  - apply Forall_cons in Hnan. destruct Hnan as [Hx Hrest].
    apply Forall_cons in Hrest. destruct Hrest as [Hy Hrest].
    set (acc := if lt y x then y else x).
    assert (Hacc : is_nan acc = false) by (unfold acc; destruct (lt y x); assumption).
    assert (Hax : le acc x = true).
    { unfold acc. destruct (lt y x) eqn:E.
      - apply (FloatFacts.gt_le x y), E.
      - apply FloatFacts.le_refl, Hx. }
    assert (Hay : le acc y = true).
    { unfold acc. destruct (lt y x) eqn:E.
      - apply FloatFacts.le_refl, Hy.
      - apply FloatFacts.not_gt_le; assumption. }
    destruct (IH acc) as [Hin Hle]; [constructor; assumption|].
    apply Forall_cons in Hle. destruct Hle as [Hle_acc Hle_rest].
    split.
    + apply elem_of_cons in Hin. destruct Hin as [Hin|Hin].
      * rewrite Hin. unfold acc. destruct (lt y x);
          [apply list_elem_of_further, list_elem_of_here | apply list_elem_of_here].
      * apply list_elem_of_further, list_elem_of_further, Hin.
    + constructor; [eapply FloatFacts.le_trans; eassumption|].
      constructor; [eapply FloatFacts.le_trans; eassumption | exact Hle_rest].
Qed.

Lemma numeric_ext (df1 df2 : DataFrame) (name : string) :
  cols df1 !! name = cols df2 !! name -> numeric df1 name = numeric df2 name.
Proof. unfold numeric, getitem. intros ->. reflexivity. Qed.

Lemma DataFrame_eq (df1 df2 : DataFrame) :
  nrows df1 = nrows df2 ->
  (forall name, cols df1 !! name = cols df2 !! name) ->
  df1 = df2.
Proof.
  destruct df1 as [n1 c1], df2 as [n2 c2]; simpl. intros -> Hcols.
  f_equal. apply map_eq, Hcols.
Qed.

Lemma high_low_close_not_derived :
  ("high"%string ∉ derived_columns) /\
  ("low"%string ∉ derived_columns) /\
  ("close"%string ∉ derived_columns).
Proof.
  repeat split; apply candle_not_derived; unfold candle_columns; set_solver.
Qed.

Section IndicatorColumns.

Context {pandas : PandasVersion} {talib : TALib}.
Context (df df' : DataFrame) (metadata : gmap string string).
Hypothesis Hrun : populate_indicators df metadata = Ok df'.

(** What a successful run read and wrote. *)
Local Ltac columns high low close :=
  destruct (populate_indicators_inv df metadata df' Hrun)
    as (high & low & close & Hh & Hl & Hc);
  let df2 := fresh "df2" in
  let Hrun2 := fresh "Hrun2" in
  destruct (populate_indicators_runs df metadata high low close Hh Hl Hc)
    as (df2 & Hrun2 & Hn & Hframe & Hpc & Hatr & Hlong & Hratio & Hes & Hel & Hup & Hsw);
  rewrite Hrun in Hrun2; injection Hrun2 as <-.

(** X5: running [populate_indicators] again on its own output changes
    nothing: the derived columns are functions of [high], [low] and
    [close] only, and those are left as they were. *)
Theorem populate_indicators_idempotent (metadata' : gmap string string) :
  populate_indicators df' metadata' = Ok df'.
Proof.
  columns high low close.
  destruct high_low_close_not_derived as (Dh & Dl & Dc).
  assert (Hh' : numeric df' "high" = Ok high)
    by (rewrite (numeric_ext df' df); [exact Hh | apply Hframe, Dh]).
  assert (Hl' : numeric df' "low" = Ok low)
    by (rewrite (numeric_ext df' df); [exact Hl | apply Hframe, Dl]).
  assert (Hc' : numeric df' "close" = Ok close)
    by (rewrite (numeric_ext df' df); [exact Hc | apply Hframe, Dc]).
  destruct (populate_indicators_runs df' metadata' high low close Hh' Hl' Hc')
    as (df2 & Hrun2 & Hn2 & Hframe2 & Hpc2 & Hatr2 & Hlong2 & Hratio2 & Hes2 & Hel2
        & Hup2 & Hsw2).
  rewrite Hrun2. f_equal. apply DataFrame_eq; [exact Hn2|].
  rewrite Hn in *.
  intros name. destruct (decide (name ∈ derived_columns)) as [Hin|Hout].
  - unfold derived_columns in Hin.
    repeat (apply elem_of_cons in Hin; destruct Hin as [->|Hin]; [congruence|]).
    apply elem_of_nil in Hin. destruct Hin.
  - apply Hframe2, Hout.
Qed.

(** X6: the [uptrend] cell of a row is the comparison
    [ema_short > ema_long] of that row, and it is false wherever one of the
    two averages is NaN, as during their warm-up. *)
Theorem uptrend_is_comparison (i : nat) (ema_short ema_long : float) :
  cell df' "ema_short" i = Some (F ema_short) ->
  cell df' "ema_long" i = Some (F ema_long) ->
  cell df' "uptrend" i = Some (B (gt ema_short ema_long)) /\
  (is_nan ema_short = true \/ is_nan ema_long = true ->
   cell df' "uptrend" i = Some (B false)).
Proof.
  columns high low close.
  unfold cell. rewrite Hes, Hel, Hup. simpl. intros Hs Hlg.
  apply list_lookup_fmap_Some in Hs. destruct Hs as (s & [= <-] & Hs).
  apply list_lookup_fmap_Some in Hlg. destruct Hlg as (lg & [= <-] & Hlg).
  assert (Hcell : resize (nrows df) (F nan)
                    (B <$> series_gt (resize (nrows df) nan (TA_EMA close 50))
                             (resize (nrows df) nan (TA_EMA close 200))) !! i
                  = Some (B (gt ema_short ema_long))).
  { rewrite resize_all_alt.
    - apply list_lookup_fmap_Some_2. unfold series_gt.
      rewrite lookup_zip_with, Hs, Hlg. reflexivity.
    - unfold series_gt. rewrite length_fmap, length_zip_with, !length_resize. lia. }
  split; [exact Hcell|].
  intros [Hnan|Hnan]; rewrite Hcell; do 2 f_equal.
  - apply NanFacts.gt_nan_l, Hnan.
  - apply NanFacts.gt_nan_r, Hnan.
Qed.

(** X7: warm-up.  The first row has no price change; the first 99 rows
    have neither a long-term ATR nor an ATR ratio, whatever the ATR is; the
    first 4 rows have no swing low.  The cells are NaN. *)
Theorem warm_up_rows_are_nan :
  ((0 < len df)%nat -> cell df' "price_change" 0 = Some (F nan)) /\
  (forall i : nat, (i < len df)%nat -> (i < 99)%nat ->
     cell df' "long_atr" i = Some (F nan) /\
     cell df' "atr_ratio" i = Some (F nan)) /\
  (forall i : nat, (i < len df)%nat -> (i < 4)%nat ->
     cell df' "swing_low" i = Some (F nan)).
Proof.
  columns high low close. unfold len, cell.
  rewrite Hpc, Hlong, Hratio, Hsw. simpl.
  assert (Hroll : forall w agg xs i, (i + 1 < w)%nat ->
            default nan (rolling w agg xs !! i) = nan).
  { intros w agg xs i Hi. rewrite rolling_lookup. unfold window.
    replace (i + 1 <? w)%nat with true by (symmetry; apply Nat.ltb_lt; exact Hi).
    destruct (xs !! i); reflexivity. }
  repeat split.
  - intros Hpos. apply list_lookup_fmap_Some_2.
    rewrite lookup_resize_default by exact Hpos. f_equal.
    rewrite pct_change_lookup.
    destruct ((if pct_change_pads then ffill close else close) !! 0%nat) as [cur|];
      [|reflexivity].
    simpl. apply NanFacts.is_nan_eq, NanFacts.sub_nan_l, NanFacts.div_nan_r. reflexivity.
  - apply list_lookup_fmap_Some_2.
    rewrite lookup_resize_default by assumption. f_equal.
    apply Hroll. lia.
  - apply list_lookup_fmap_Some_2.
    rewrite lookup_resize_default by assumption. f_equal.
    unfold series_div. rewrite lookup_zip_with.
    rewrite !lookup_resize_default by assumption. simpl.
    unfold rolling_mean. rewrite Hroll by lia.
    apply NanFacts.is_nan_eq, NanFacts.div_nan_r. reflexivity.
  - intros i Hi H4. apply list_lookup_fmap_Some_2.
    rewrite lookup_resize_default by assumption. f_equal.
    apply Hroll. lia.
Qed.

(** X8: from the fifth row on, the swing low of a row whose last five
    lows are finite numbers is the least of those five: it is one of them
    and at most each of them.  If one of the five is NaN, the swing low is
    NaN. *)
Theorem swing_low_is_window_minimum (low : list float) (i : nat) :
  numeric df "low" = Ok low ->
  length low = len df ->
  (4 <= i)%nat -> (i < len df)%nat ->
  let win := take 5 (drop (i - 4) low) in
  (forallb is_finite win = true ->
   exists m, cell df' "swing_low" i = Some (F m) /\
             m ∈ win /\
             Forall (fun x => le m x = true) win) /\
  (existsb is_nan win = true -> cell df' "swing_low" i = Some (F nan)).
Proof.
  intros Hlow Hlen H4 Hi win.
  columns high low' close. rewrite Hlow in Hl. injection Hl as <-.
  unfold len in *. unfold cell. rewrite Hsw. simpl.
  assert (Hcell : resize (nrows df) nan (rolling_min 5 low) !! i
                  = Some (if void win then nan else minimum win)).
  { rewrite lookup_resize_default by exact Hi. f_equal.
    unfold rolling_min. rewrite rolling_lookup. unfold window.
    replace (i + 1 <? 5)%nat with false by (symmetry; apply Nat.ltb_ge; lia).
    replace (i + 1 - 5)%nat with (i - 4)%nat by lia.
    destruct (lookup_lt_is_Some_2 low i) as [x Hx]; [lia|].
    rewrite Hx. reflexivity. }
  split.
  - intros Hfin. destruct (void_finite win Hfin) as [Hvoid Hnan].
    rewrite Hvoid in Hcell.
    exists (minimum win). split; [apply list_lookup_fmap_Some_2, Hcell|].
    assert (Hwin : length win = 5%nat).
    { unfold win. rewrite length_take, length_drop. lia. }
    destruct win as [|x rest]; [discriminate Hwin|].
    simpl. apply py_min_least, Hnan.
  - intros Hnan. rewrite (void_nan win Hnan) in Hcell.
    apply list_lookup_fmap_Some_2, Hcell.
Qed.

End IndicatorColumns.

(** ** The signal passes: what they write and what they keep *)

Section LocAssign.

Context (df : DataFrame) (mask : list bool) (name : string) (v : scalar).

Lemma cols_loc_assign_ne (name' : string) :
  name <> name' -> cols (loc_assign df mask name v) !! name' = cols df !! name'.
Proof. intros Hne. unfold loc_assign; simpl. apply lookup_insert_ne, Hne. Qed.

Lemma cols_loc_assign_eq : is_Some (cols (loc_assign df mask name v) !! name).
Proof. unfold loc_assign; simpl. rewrite lookup_insert_eq. eexists. reflexivity. Qed.

Lemma numeric_loc_assign_ne (name' : string) :
  name <> name' -> numeric (loc_assign df mask name v) name' = numeric df name'.
Proof. intros Hne. apply numeric_ext, cols_loc_assign_ne, Hne. Qed.

Lemma flagged_loc_assign_ne (name' : string) (i : nat) :
  name <> name' -> flagged (loc_assign df mask name v) name' i = flagged df name' i.
Proof.
  intros Hne. unfold flagged, cell. rewrite cols_loc_assign_ne by exact Hne. reflexivity.
Qed.

(** Assigning the same value under the same mask twice is assigning it
    once. *)
Lemma loc_assign_idem :
  loc_assign (loc_assign df mask name v) mask name v = loc_assign df mask name v.
Proof.
  apply DataFrame_eq; [reflexivity|]. intros name'.
  destruct (decide (name = name')) as [<-|Hne].
  - unfold loc_assign; simpl. rewrite !lookup_insert_eq. simpl. f_equal.
    rewrite resize_all_alt by (rewrite length_imap, length_resize; reflexivity).
    apply list_eq. intros i. rewrite !list_lookup_imap.
    destruct (resize (nrows df) (F nan) (default [] (cols df !! name)) !! i); simpl;
      [|reflexivity].
    destruct (default false (mask !! i)); reflexivity.
  - unfold loc_assign; simpl. rewrite !lookup_insert_ne by exact Hne. reflexivity.
Qed.

End LocAssign.

Section SignalPasses.

Context (df : DataFrame) (metadata : gmap string string).

(** X9: [populate_buy_trend], given a numeric [price_change] column.  On
    a frame without rows that has no [buy] column it raises [ValueError].
    On every other frame it keeps the row count and every column other
    than [buy]; in [buy] a row whose price change is at least 0.01 receives
    1 and every other row keeps the cell it had (NaN when the column is
    new), so an entry signal that is already set is never cleared. *)
Theorem populate_buy_trend_effect (price_change : list float) :
  numeric df "price_change" = Ok price_change ->
  (len df = 0%nat -> cols df !! "buy" = None ->
   populate_buy_trend df metadata = Raise ValueError) /\
  ((0 < len df)%nat \/ is_Some (cols df !! "buy") ->
   exists df',
     populate_buy_trend df metadata = Ok df' /\
     len df' = len df /\
     (forall name : string, name <> "buy"%string -> cols df' !! name = cols df !! name) /\
     (forall (i : nat) (x : float),
        (i < len df)%nat -> price_change !! i = Some x ->
        cell df' "buy" i
        = Some (if ge x 0.01 then F 1 else default (F nan) (cell df "buy" i))) /\
     (forall i : nat,
        (i < len df)%nat -> flagged df "buy" i = true -> flagged df' "buy" i = true)).
Proof.
  intros Hpc. unfold populate_buy_trend. rewrite Hpc, bind_Ok. split.
  - intros Hlen Hbuy. apply loc_setitem_refused; assumption.
  - intros Hrows. rewrite loc_setitem_ok by exact Hrows.
    eexists. split; [reflexivity|]. split; [reflexivity|]. repeat split.
    + intros name Hne. apply cols_loc_assign_ne. congruence.
    + intros i x Hi Hx. rewrite cell_loc_assign by exact Hi.
      unfold series_ge_scalar. rewrite list_lookup_fmap, Hx. reflexivity.
    + intros i Hi Hflag. rewrite flagged_loc_assign.
      apply Nat.ltb_lt in Hi. unfold len in Hi. rewrite Hi.
      destruct (default false (series_ge_scalar price_change 0.01 !! i)); [reflexivity|].
      unfold flagged in Hflag |- *.
      destruct (cell df "buy" i); [exact Hflag | discriminate Hflag].
Qed.

(** X10: [populate_sell_trend], given a numeric [close] column.  On a
    frame without rows that has no [sell] column it raises [ValueError].
    On every other frame it keeps the row count and every column other
    than [sell]; in [sell] a row whose close is greater than 0 receives 0
    and every other row (a close that is zero, negative or NaN) keeps the
    cell it had, NaN when the column is new. *)
Theorem populate_sell_trend_effect (close : list float) :
  numeric df "close" = Ok close ->
  (len df = 0%nat -> cols df !! "sell" = None ->
   populate_sell_trend df metadata = Raise ValueError) /\
  ((0 < len df)%nat \/ is_Some (cols df !! "sell") ->
   exists df',
     populate_sell_trend df metadata = Ok df' /\
     len df' = len df /\
     (forall name : string, name <> "sell"%string -> cols df' !! name = cols df !! name) /\
     (forall (i : nat) (x : float),
        (i < len df)%nat -> close !! i = Some x ->
        cell df' "sell" i
        = Some (if gt x 0 then F 0 else default (F nan) (cell df "sell" i)))).
Proof.
  intros Hc. unfold populate_sell_trend. rewrite Hc, bind_Ok. split.
  - intros Hlen Hsell. apply loc_setitem_refused; assumption.
  - intros Hrows. rewrite loc_setitem_ok by exact Hrows.
    eexists. split; [reflexivity|]. split; [reflexivity|]. repeat split.
    + intros name Hne. apply cols_loc_assign_ne. congruence.
    + intros i x Hi Hx. rewrite cell_loc_assign by exact Hi.
      unfold series_gt_scalar. rewrite list_lookup_fmap, Hx. reflexivity.
Qed.

(** X11: on a frame that has rows the two signal passes commute as far
    as the contents go: neither reads the column the other writes, so in
    either order they return frames with the same row count and, under
    every name, the same column.  (The order in which the frame lists
    newly created columns is not compared.) *)
Theorem signal_passes_commute (price_change close : list float) :
  numeric df "price_change" = Ok price_change ->
  numeric df "close" = Ok close ->
  (0 < len df)%nat ->
  exists df2 df2',
    (df1 ← populate_buy_trend df metadata; populate_sell_trend df1 metadata) = Ok df2 /\
    (df1 ← populate_sell_trend df metadata; populate_buy_trend df1 metadata) = Ok df2' /\
    len df2 = len df2' /\
    forall name : string, cols df2 !! name = cols df2' !! name.
Proof.
  intros Hpc Hc Hrows. unfold populate_buy_trend, populate_sell_trend.
  rewrite Hpc, Hc, !bind_Ok.
  rewrite !loc_setitem_ok by (left; exact Hrows). rewrite !bind_Ok.
  rewrite !numeric_loc_assign_ne by discriminate.
  rewrite Hpc, Hc, !bind_Ok.
  rewrite !loc_setitem_ok by (left; exact Hrows).
  do 2 eexists. split; [reflexivity|]. split; [reflexivity|]. split; [reflexivity|].
  intros name. unfold loc_assign; simpl.
  rewrite !(lookup_insert_ne (cols df)) by discriminate.
  rewrite (insert_insert_ne (cols df) "sell" "buy") by discriminate. reflexivity.
Qed.

(** X12: on a frame that has rows each signal pass is idempotent: run
    again on its own output it returns that output unchanged. *)
Theorem signal_passes_idempotent (price_change close : list float) :
  numeric df "price_change" = Ok price_change ->
  numeric df "close" = Ok close ->
  (0 < len df)%nat ->
  exists df1 df2,
    populate_buy_trend df metadata = Ok df1 /\
    populate_buy_trend df1 metadata = Ok df1 /\
    populate_sell_trend df metadata = Ok df2 /\
    populate_sell_trend df2 metadata = Ok df2.
Proof.
  intros Hpc Hc Hrows. unfold populate_buy_trend, populate_sell_trend.
  rewrite Hpc, Hc, !bind_Ok.
  rewrite !loc_setitem_ok by (left; exact Hrows).
  do 2 eexists. split; [reflexivity|]. split; [|split; [reflexivity|]].
  - rewrite numeric_loc_assign_ne by discriminate.
    rewrite Hpc, bind_Ok, loc_setitem_ok by (left; exact Hrows).
    rewrite loc_assign_idem. reflexivity.
  - rewrite numeric_loc_assign_ne by discriminate.
    rewrite Hc, bind_Ok, loc_setitem_ok by (left; exact Hrows).
    rewrite loc_assign_idem. reflexivity.
Qed.

End SignalPasses.

(** ** The passes in the order the host runs them *)

(** X13: the entry pass needs the indicator pass: on a frame of raw
    candles it raises [KeyError] for [price_change]. *)
Theorem populate_buy_trend_needs_indicators (cs : list Candle)
    (metadata : gmap string string) :
  populate_buy_trend (frame_of_candles cs) metadata = Raise (KeyError "price_change").
Proof.
  unfold populate_buy_trend, numeric, getitem.
  rewrite candles_no_signal_columns; [reflexivity|].
  unfold candle_columns. rewrite !not_elem_of_cons.
  repeat split; first [discriminate | apply not_elem_of_nil].
Qed.

(** X14: on every candle series that is not empty the three passes,
    run in order, raise nothing.  The final frame has one row per candle
    and the candle columns as supplied; no row carries an exit signal, and
    the exit pass leaves the entry signals as the entry pass set them. *)
Theorem analysis_pipeline {pandas : PandasVersion} {talib : TALib}
    (cs : list Candle) (metadata : gmap string string) :
  cs <> [] ->
  exists df1 df2 df3,
    populate_indicators (frame_of_candles cs) metadata = Ok df1 /\
    populate_buy_trend df1 metadata = Ok df2 /\
    populate_sell_trend df2 metadata = Ok df3 /\
    len df3 = length cs /\
    (forall name, name ∈ candle_columns ->
       cols df3 !! name = cols (frame_of_candles cs) !! name) /\
    (forall i : nat, flagged df3 "sell" i = false) /\
    (forall i : nat, flagged df3 "buy" i = flagged df2 "buy" i).
Proof.
  intros Hcs.
  assert (Hrows : (0 < length cs)%nat) by (destruct cs; [congruence | simpl; lia]).
  destruct (numeric_candles cs) as (Hh & Hl & Hc).
  destruct (populate_indicators_runs (frame_of_candles cs) metadata _ _ _ Hh Hl Hc)
    as (df1 & Hrun & Hn & Hframe & Hpc & _).
  simpl in Hn.
  destruct high_low_close_not_derived as (_ & _ & Dc).
  assert (Hsell : cols df1 !! "sell" = None).
  { rewrite Hframe.
    - apply candles_no_signal_columns. unfold candle_columns.
      rewrite !not_elem_of_cons. repeat split; first [discriminate | apply not_elem_of_nil].
    - unfold derived_columns. rewrite !not_elem_of_cons.
      repeat split; first [discriminate | apply not_elem_of_nil]. }
  exists df1. unfold populate_buy_trend, populate_sell_trend.
  assert (Hnum : numeric df1 "price_change"
                 = Ok (resize (nrows (frame_of_candles cs)) nan
                         (pct_change (c_close <$> cs)))).
  { unfold numeric, getitem. rewrite Hpc, bind_Ok. apply to_floats_F. }
  rewrite Hnum, bind_Ok.
  rewrite loc_setitem_ok by (left; lia).
  do 2 eexists. split; [exact Hrun|]. split; [reflexivity|].
  rewrite numeric_loc_assign_ne by discriminate.
  rewrite (numeric_ext df1 (frame_of_candles cs) "close") by (apply Hframe, Dc).
  rewrite Hc, bind_Ok.
  rewrite loc_setitem_ok by (left; simpl; lia).
  split; [reflexivity|].
  repeat split.
  - unfold len; simpl. exact Hn.
  - intros name Hin. rewrite !cols_loc_assign_ne.
    + apply Hframe, candle_not_derived, Hin.
    + intros <-. revert Hin. unfold candle_columns. rewrite !elem_of_cons, elem_of_nil.
      intuition discriminate.
    + intros <-. revert Hin. unfold candle_columns. rewrite !elem_of_cons, elem_of_nil.
      intuition discriminate.
  - intros i. rewrite flagged_loc_assign. unfold cell.
    rewrite cols_loc_assign_ne by discriminate. rewrite Hsell. simpl.
    destruct (i <? _)%nat; [|reflexivity].
    destruct (default false _); reflexivity.
  - intros i. apply flagged_loc_assign_ne. discriminate.
Qed.

(** X15: the indicator pass supplies everything the stop-loss reads: on
    the output of [populate_indicators] for a history of at least 200 rows
    [custom_stoploss] finds its four cells and returns a float. *)
Theorem custom_stoploss_after_indicators {pandas : PandasVersion} {talib : TALib}
    (df df' : DataFrame) (metadata : gmap string string)
    (dp : DataProvider) (pair : string) (trade : Trade)
    (current_time : datetime) (current_rate current_profit : float)
    (after_fill : bool) :
  populate_indicators df metadata = Ok df' ->
  (startup_candle_count <= len df)%nat ->
  analyzed dp pair = df' ->
  exists x : float,
    custom_stoploss dp pair trade current_time current_rate current_profit after_fill
    = Ok (PyFloat x).
Proof.
  intros Hrun Hlen Hdp.
  destruct (populate_indicators_inv df metadata df' Hrun)
    as (high & low & close & Hh & Hl & Hc).
  destruct (populate_indicators_runs df metadata high low close Hh Hl Hc)
    as (df2 & Hrun2 & Hn & _ & _ & Hatr & _ & Hratio & _ & _ & Hup & Hsw).
  rewrite Hrun in Hrun2. injection Hrun2 as <-.
  unfold startup_candle_count, len in Hlen.
  assert (Hlast : (nrows df' - 1 < nrows df)%nat) by lia.
  assert (Hann : exists a r u s, annotated_last (analyzed dp pair) a r u s).
  { rewrite Hdp. unfold annotated_last, last_cell, cell.
    rewrite Hatr, Hratio, Hup, Hsw. simpl.
    rewrite !list_lookup_fmap, !lookup_resize_default by exact Hlast. simpl.
    do 4 eexists. repeat split; reflexivity. }
  destruct Hann as (a & r & u & s & Hann).
  assert (Hlen' : (startup_candle_count <= len (analyzed dp pair))%nat).
  { rewrite Hdp. unfold startup_candle_count, len. lia. }
  destruct (custom_stoploss_runs dp pair trade current_time current_rate
              current_profit after_fill a r u s Hlen' Hann)
    as (row & l & _ & _ & _ & _ & _ & _ & Hres).
  exists (stoploss_pct l). exact Hres.
Qed.

(** ** What the derived columns depend on *)

(** X16: the derived columns are functions of the row count and of the
    [high], [low] and [close] columns only: two frames that agree on those
    get the same eight derived columns, whatever their other columns
    (open, volume, date) and the metadata are. *)
Theorem indicators_depend_on_prices_only {pandas : PandasVersion} {talib : TALib}
    (df1 df2 df1' df2' : DataFrame) (metadata1 metadata2 : gmap string string) :
  populate_indicators df1 metadata1 = Ok df1' ->
  populate_indicators df2 metadata2 = Ok df2' ->
  len df1 = len df2 ->
  numeric df1 "high" = numeric df2 "high" ->
  numeric df1 "low" = numeric df2 "low" ->
  numeric df1 "close" = numeric df2 "close" ->
  forall name, name ∈ derived_columns -> cols df1' !! name = cols df2' !! name.
Proof.
  intros Hrun1 Hrun2 Hlen Ehigh Elow Eclose. unfold len in Hlen.
  destruct (populate_indicators_inv df1 metadata1 df1' Hrun1)
    as (high & low & close & Hh & Hl & Hc).
  destruct (populate_indicators_runs df1 metadata1 high low close Hh Hl Hc)
    as (a & Ha & _ & _ & Hpc & Hatr & Hlong & Hratio & Hes & Hel & Hup & Hsw).
  rewrite Hrun1 in Ha. injection Ha as <-.
  rewrite Ehigh in Hh. rewrite Elow in Hl. rewrite Eclose in Hc.
  destruct (populate_indicators_runs df2 metadata2 high low close Hh Hl Hc)
    as (b & Hb & _ & _ & Hpc2 & Hatr2 & Hlong2 & Hratio2 & Hes2 & Hel2 & Hup2 & Hsw2).
  rewrite Hrun2 in Hb. injection Hb as <-.
  rewrite <- Hlen in *.
  intros name Hin. unfold derived_columns in Hin.
  repeat (apply elem_of_cons in Hin; destruct Hin as [->|Hin]; [congruence|]).
  apply elem_of_nil in Hin. destruct Hin.
Qed.

(** X17: the entry signals depend on the closes only: two candle series
    that are not empty and have the same closes get the same entry
    signals, row by row. *)
Theorem entry_signals_depend_on_closes_only {pandas : PandasVersion} {talib : TALib}
    (cs1 cs2 : list Candle) (metadata1 metadata2 : gmap string string) :
  cs1 <> [] ->
  c_close <$> cs1 = c_close <$> cs2 ->
  exists a1 b1 a2 b2,
    populate_indicators (frame_of_candles cs1) metadata1 = Ok a1 /\
    populate_buy_trend a1 metadata1 = Ok b1 /\
    populate_indicators (frame_of_candles cs2) metadata2 = Ok a2 /\
    populate_buy_trend a2 metadata2 = Ok b2 /\
    forall i : nat, flagged b1 "buy" i = flagged b2 "buy" i.
Proof.
  intros Hcs Hclose.
  assert (Hlen : length cs1 = length cs2).
  { rewrite <- (length_fmap c_close cs1), Hclose. apply length_fmap. }
  assert (Hrows : (0 < length cs1)%nat) by (destruct cs1; [congruence | simpl; lia]).
  assert (Hside : forall cs metadata,
            (0 < length cs)%nat ->
            exists a b,
              populate_indicators (frame_of_candles cs) metadata = Ok a /\
              populate_buy_trend a metadata = Ok b /\
              forall i, flagged b "buy" i
                        = if (i <? length cs)%nat
                          then default false
                                 (series_ge_scalar
                                    (resize (length cs) nan (pct_change (c_close <$> cs)))
                                    0.01 !! i)
                          else false).
  { intros cs metadata Hpos.
    destruct (numeric_candles cs) as (Hh & Hl & Hc).
    destruct (populate_indicators_runs (frame_of_candles cs) metadata _ _ _ Hh Hl Hc)
      as (a & Hrun & Hn & Hframe & Hpc & _).
    simpl in Hn.
    exists a. unfold populate_buy_trend, numeric, getitem.
    rewrite Hpc, bind_Ok, to_floats_F, bind_Ok.
    rewrite loc_setitem_ok by (left; lia).
    eexists. split; [exact Hrun|]. split; [reflexivity|].
    intros i. rewrite flagged_loc_assign, Hn. simpl.
    assert (Hnone : cell a "buy" i = None).
    { unfold cell. rewrite Hframe.
      - rewrite candles_no_signal_columns; [reflexivity|].
        unfold candle_columns. rewrite !not_elem_of_cons.
        repeat split; first [discriminate | apply not_elem_of_nil].
      - unfold derived_columns. rewrite !not_elem_of_cons.
        repeat split; first [discriminate | apply not_elem_of_nil]. }
    rewrite Hnone.
    destruct (i <? length cs)%nat; [|reflexivity].
    destruct (default false _); reflexivity. }
  destruct (Hside cs1 metadata1 Hrows) as (a1 & b1 & Ha1 & Hb1 & Hf1).
  destruct (Hside cs2 metadata2 ltac:(lia)) as (a2 & b2 & Ha2 & Hb2 & Hf2).
  exists a1, b1, a2, b2. repeat (split; [assumption|]).
  intros i. rewrite Hf1, Hf2, Hclose, Hlen. reflexivity.
Qed.

(** *** Runs on concrete inputs *)

Section ExtraRuns.

Import Samples MoreSamples.

Lemma ten_analyzed_run :
  populate_indicators (pandas := pandas_2) (talib := reference_talib) (frame_of_candles ten_candles) ∅
  = Ok ten_analyzed.
Proof. vm_compute. reflexivity. Defined.

Lemma flat_analyzed_run :
  populate_indicators (pandas := pandas_2) (talib := reference_talib) (frame_of_candles flat_candles) ∅
  = Ok flat_analyzed.
Proof. vm_compute. reflexivity. Defined.

Lemma populate_indicators_missing_column_witness :
  populate_indicators (pandas := pandas_2) (talib := reference_talib) frame_without_high ∅
  = Raise (Exception ["high"%string]) /\
  populate_indicators (pandas := pandas_3) (talib := reference_talib)
    frame_without_high_low ∅
  = Raise (Exception ["high"; "low"]%string).
Proof.
  split.
  - apply (proj1 (proj2 (populate_indicators_missing_column
                           (pandas := pandas_2) (talib := reference_talib)
                           frame_without_high ∅)) [100%float]).
    + vm_compute. reflexivity.
    + vm_compute. reflexivity.
    + vm_compute. eexists. reflexivity.
  - apply (proj2 (proj2 (proj2 (populate_indicators_missing_column
                                  (pandas := pandas_3) (talib := reference_talib)
                                  frame_without_high_low ∅))) [100%float]);
      vm_compute; reflexivity.
Defined.

Lemma populate_indicators_idempotent_witness :
  populate_indicators (pandas := pandas_2) (talib := reference_talib) ten_analyzed ∅ = Ok ten_analyzed.
Proof.
  exact (populate_indicators_idempotent (pandas := pandas_2) (talib := reference_talib)
           (frame_of_candles ten_candles) ten_analyzed ∅ ten_analyzed_run ∅).
Defined.

Lemma uptrend_is_comparison_witness :
  cell flat_analyzed "ema_short" 199 = Some (F 100) /\
  cell flat_analyzed "ema_long" 199 = Some (F 100) /\
  cell flat_analyzed "uptrend" 199 = Some (B (gt 100 100)) /\
  (is_nan 100 = true \/ is_nan 100 = true ->
   cell flat_analyzed "uptrend" 199 = Some (B false)).
Proof.
  assert (Hs : cell flat_analyzed "ema_short" 199 = Some (F 100))
    by (vm_compute; reflexivity).
  assert (Hl : cell flat_analyzed "ema_long" 199 = Some (F 100))
    by (vm_compute; reflexivity).
  split; [exact Hs|]. split; [exact Hl|].
  exact (uptrend_is_comparison (pandas := pandas_2) (talib := reference_talib)
           (frame_of_candles flat_candles) flat_analyzed ∅ flat_analyzed_run
           199 100 100 Hs Hl).
Defined.

Lemma warm_up_rows_are_nan_witness :
  ((0 < len (frame_of_candles ten_candles))%nat ->
   cell ten_analyzed "price_change" 0 = Some (F nan)) /\
  (forall i : nat, (i < len (frame_of_candles ten_candles))%nat -> (i < 99)%nat ->
     cell ten_analyzed "long_atr" i = Some (F nan) /\
     cell ten_analyzed "atr_ratio" i = Some (F nan)) /\
  (forall i : nat, (i < len (frame_of_candles ten_candles))%nat -> (i < 4)%nat ->
     cell ten_analyzed "swing_low" i = Some (F nan)).
Proof.
  exact (warm_up_rows_are_nan (pandas := pandas_2) (talib := reference_talib)
           (frame_of_candles ten_candles) ten_analyzed ∅ ten_analyzed_run).
Defined.

Lemma swing_low_is_window_minimum_witness :
  take 5 (drop (6 - 4) (c_low <$> ten_candles)) = [97; 96; 95; 94; 93]%float /\
  (forallb is_finite (take 5 (drop (6 - 4) (c_low <$> ten_candles))) = true ->
   exists m, cell ten_analyzed "swing_low" 6 = Some (F m) /\
             m ∈ take 5 (drop (6 - 4) (c_low <$> ten_candles)) /\
             Forall (fun x => le m x = true)
               (take 5 (drop (6 - 4) (c_low <$> ten_candles)))) /\
  (existsb is_nan (take 5 (drop (6 - 4) (c_low <$> ten_candles))) = true ->
   cell ten_analyzed "swing_low" 6 = Some (F nan)).
Proof.
  split; [vm_compute; reflexivity|].
  apply (swing_low_is_window_minimum (pandas := pandas_2) (talib := reference_talib)
           (frame_of_candles ten_candles) ten_analyzed ∅ ten_analyzed_run
           (c_low <$> ten_candles) 6).
  - vm_compute. reflexivity.
  - vm_compute. reflexivity.
  - lia.
  - vm_compute. lia.
Defined.

Lemma populate_buy_trend_effect_witness :
  populate_buy_trend empty_priced_frame ∅ = Raise ValueError /\
  exists df',
    populate_buy_trend priced_frame ∅ = Ok df' /\
    len df' = len priced_frame /\
    (forall name : string, name <> "buy"%string ->
       cols df' !! name = cols priced_frame !! name) /\
    (forall (i : nat) (x : float),
       (i < len priced_frame)%nat -> [nan; 0.02; -0.01]%float !! i = Some x ->
       cell df' "buy" i
       = Some (if ge x 0.01 then F 1 else default (F nan) (cell priced_frame "buy" i))) /\
    (forall i : nat,
       (i < len priced_frame)%nat ->
       flagged priced_frame "buy" i = true -> flagged df' "buy" i = true).
Proof.
  split.
  - apply (proj1 (populate_buy_trend_effect empty_priced_frame ∅ []
                    ltac:(vm_compute; reflexivity)));
      vm_compute; reflexivity.
  - apply (proj2 (populate_buy_trend_effect priced_frame ∅ [nan; 0.02; -0.01]%float
                    ltac:(vm_compute; reflexivity))).
    left. vm_compute. lia.
Defined.

Lemma populate_sell_trend_effect_witness :
  populate_sell_trend empty_priced_frame ∅ = Raise ValueError /\
  exists df',
    populate_sell_trend priced_frame ∅ = Ok df' /\
    len df' = len priced_frame /\
    (forall name : string, name <> "sell"%string ->
       cols df' !! name = cols priced_frame !! name) /\
    (forall (i : nat) (x : float),
       (i < len priced_frame)%nat -> [100; 102; 101]%float !! i = Some x ->
       cell df' "sell" i
       = Some (if gt x 0 then F 0 else default (F nan) (cell priced_frame "sell" i))).
Proof.
  split.
  - apply (proj1 (populate_sell_trend_effect empty_priced_frame ∅ []
                    ltac:(vm_compute; reflexivity)));
      vm_compute; reflexivity.
  - apply (proj2 (populate_sell_trend_effect priced_frame ∅ [100; 102; 101]%float
                    ltac:(vm_compute; reflexivity))).
    left. vm_compute. lia.
Defined.

Lemma signal_passes_commute_witness :
  exists df2 df2',
    (df1 ← populate_buy_trend unsigned_frame ∅; populate_sell_trend df1 ∅) = Ok df2 /\
    (df1 ← populate_sell_trend unsigned_frame ∅; populate_buy_trend df1 ∅) = Ok df2' /\
    len df2 = len df2' /\
    forall name : string, cols df2 !! name = cols df2' !! name.
Proof.
  apply (signal_passes_commute unsigned_frame ∅ [nan; 0.02; -0.01]%float
           [100; 102; 101]%float);
    first [vm_compute; reflexivity | vm_compute; lia].
Defined.

Lemma signal_passes_idempotent_witness :
  exists df1 df2,
    populate_buy_trend unsigned_frame ∅ = Ok df1 /\
    populate_buy_trend df1 ∅ = Ok df1 /\
    populate_sell_trend unsigned_frame ∅ = Ok df2 /\
    populate_sell_trend df2 ∅ = Ok df2.
Proof.
  apply (signal_passes_idempotent unsigned_frame ∅ [nan; 0.02; -0.01]%float
           [100; 102; 101]%float);
    first [vm_compute; reflexivity | vm_compute; lia].
Defined.

Lemma analysis_pipeline_witness :
  exists df1 df2 df3,
    populate_indicators (pandas := pandas_2) (talib := reference_talib)
      (frame_of_candles two_candles) ∅ = Ok df1 /\
    populate_buy_trend df1 ∅ = Ok df2 /\
    populate_sell_trend df2 ∅ = Ok df3 /\
    len df3 = length two_candles /\
    (forall name, name ∈ candle_columns ->
       cols df3 !! name = cols (frame_of_candles two_candles) !! name) /\
    (forall i : nat, flagged df3 "sell" i = false) /\
    (forall i : nat, flagged df3 "buy" i = flagged df2 "buy" i).
Proof.
  apply (analysis_pipeline (pandas := pandas_2) (talib := reference_talib)
           two_candles ∅).
  discriminate.
Defined.

Lemma custom_stoploss_after_indicators_witness :
  exists x : float,
    custom_stoploss (serving flat_analyzed) "BTC/USDT" trade_100 (minutes 10) 100 0 false
    = Ok (PyFloat x).
Proof.
  apply (custom_stoploss_after_indicators (pandas := pandas_2) (talib := reference_talib)
           (frame_of_candles flat_candles) flat_analyzed ∅
           (serving flat_analyzed) "BTC/USDT" trade_100 (minutes 10) 100 0 false
           flat_analyzed_run).
  - vm_compute. lia.
  - reflexivity.
Defined.

(** The entry signals of [priced_frame] before and after the entry pass,
    and its exit signals before and after the exit pass: the set entry
    signal stays and the new one is added; the exit signal at a positive
    close is overwritten with 0. *)
Example signals_on_priced_frame :
  (df ← populate_buy_trend priced_frame ∅;
   Ok (flagged priced_frame "buy" <$> [0; 1; 2]%nat, flagged df "buy" <$> [0; 1; 2]%nat))
  = Ok ([true; false; false], [true; true; false]) /\
  (df ← populate_sell_trend priced_frame ∅;
   Ok (flagged priced_frame "sell" <$> [0; 1; 2]%nat, flagged df "sell" <$> [0; 1; 2]%nat))
  = Ok ([true; false; false], [false; false; false]).
Proof. split; vm_compute; reflexivity. Qed.

(** An empty candle series: the indicators are computed (every column is
    empty), and each signal pass then raises [ValueError], for the
    assignment through an empty mask would create the column. *)
Example signals_on_empty_series :
  (df ← populate_indicators (pandas := pandas_2) (talib := reference_talib)
          (frame_of_candles []) ∅;
   Ok (len df))
  = Ok 0%nat /\
  (df ← populate_indicators (pandas := pandas_2) (talib := reference_talib)
          (frame_of_candles []) ∅;
   populate_buy_trend df ∅)
  = Raise ValueError /\
  (df ← populate_indicators (pandas := pandas_3) (talib := reference_talib)
          (frame_of_candles []) ∅;
   populate_buy_trend df ∅)
  = Raise ValueError /\
  populate_sell_trend (frame_of_candles []) ∅ = Raise ValueError.
Proof. repeat split; vm_compute; reflexivity. Qed.

Lemma variant_analyzed_run :
  populate_indicators (pandas := pandas_2) (talib := reference_talib) (frame_of_candles ten_candles_variant) ∅
  = Ok variant_analyzed.
Proof. vm_compute. reflexivity. Defined.

Lemma indicators_depend_on_prices_only_witness :
  cols (frame_of_candles ten_candles) !! "volume"
  <> cols (frame_of_candles ten_candles_variant) !! "volume" /\
  forall name, name ∈ derived_columns ->
    cols ten_analyzed !! name = cols variant_analyzed !! name.
Proof.
  split; [vm_compute; discriminate|].
  apply (indicators_depend_on_prices_only (pandas := pandas_2) (talib := reference_talib)
           (frame_of_candles ten_candles) (frame_of_candles ten_candles_variant)
           ten_analyzed variant_analyzed ∅ ∅ ten_analyzed_run variant_analyzed_run);
    vm_compute; reflexivity.
Defined.

Lemma entry_signals_depend_on_closes_only_witness :
  exists a1 b1 a2 b2,
    populate_indicators (pandas := pandas_2) (talib := reference_talib) (frame_of_candles ten_candles) ∅
    = Ok a1 /\
    populate_buy_trend a1 ∅ = Ok b1 /\
    populate_indicators (pandas := pandas_2) (talib := reference_talib)
      (frame_of_candles ten_candles_variant) ∅
    = Ok a2 /\
    populate_buy_trend a2 ∅ = Ok b2 /\
    forall i : nat, flagged b1 "buy" i = flagged b2 "buy" i.
Proof.
  apply (entry_signals_depend_on_closes_only (pandas := pandas_2) (talib := reference_talib)
           ten_candles ten_candles_variant ∅ ∅).
  - discriminate.
  - vm_compute. reflexivity.
Defined.

End ExtraRuns.
